(** * resellerclub.py: a shallow embedding of the API client and its
      command-line frontend.

    The Python module is a thin wrapper around an HTTP API.  Its behaviour
    is parameter marshalling, one or two HTTP calls per operation, and a
    flat inspection of the decoded JSON body.  The embedding keeps these
    three ingredients explicit:

    - Python values are the inductive type [pyval];
    - dictionaries are insertion-ordered association lists with string
      keys, as the dict literals of the source are;
    - every operation runs in a small state-and-exception monad whose
      state records the HTTP calls issued and the lines printed, and whose
      answers to HTTP calls come from a [transport] given as a parameter. *)

From Stdlib Require Import String Ascii List ZArith Bool Lia.
From Stdlib Require Import Floats.SpecFloat.
Import ListNotations.
Open Scope string_scope.

Set Implicit Arguments.
Set Warnings "-register-all".

(** ** Python values *)

(** The values the program handles: what [json] decodes a body to, what
    [docopt] puts in its result mapping, and what callers pass as
    parameters of the operations. *)
Inductive pyval : Type :=
| PNone
| PBool (b : bool)
| PInt (z : Z)
| PFloat (f : spec_float)
| PStr (s : string)
| PList (l : list pyval)
| PDict (d : list (string * pyval)).

Definition dict := list (string * pyval).

(** Truth value of a Python object, as [if x], [x and y], [x or y] use it. *)
Definition float_is_zero (f : spec_float) : bool :=
  match f with
  | S754_zero _ => true
  | _ => false
  end.

Definition py_truthy (v : pyval) : bool :=
  match v with
  | PNone => false
  | PBool b => b
  | PInt z => negb (z =? 0)%Z
  | PFloat f => negb (float_is_zero f)
  | PStr s => negb (s =? "")%string
  | PList l => match l with [] => false | _ => true end
  | PDict d => match d with [] => false | _ => true end
  end.

(** [a or b] *)
Definition py_or (a b : pyval) : pyval := if py_truthy a then a else b.

(** [v == s] for a string literal [s]: only a string compares equal to a
    string. *)
Definition py_eq_str (v : pyval) (s : string) : bool :=
  match v with
  | PStr t => (t =? s)%string
  | _ => false
  end.

(** ** Dictionaries *)

(** [d.get(k)] as an option; the first binding of a key is the dict's. *)
Fixpoint dict_get (k : string) (d : dict) : option pyval :=
  match d with
  | [] => None
  | (k', v) :: d' => if (k' =? k)%string then Some v else dict_get k d'
  end.

(** [k in d] *)
Definition dict_has (k : string) (d : dict) : bool :=
  match dict_get k d with Some _ => true | None => false end.

(** [d[k] = v]: an existing key keeps its position, a new one goes last. *)
Fixpoint dict_set (k : string) (v : pyval) (d : dict) : dict :=
  match d with
  | [] => [(k, v)]
  | (k', v') :: d' =>
      if (k' =? k)%string then (k, v) :: d' else (k', v') :: dict_set k v d'
  end.

(** [d.update(e)] *)
Definition dict_update (d e : dict) : dict :=
  fold_left (fun acc kv => dict_set (fst kv) (snd kv) acc) e d.

Definition dict_keys (d : dict) : list string := map fst d.

(** ** Exceptions, HTTP calls, output *)

Inductive exn : Type :=
| ResellerError (message : pyval)
| KeyError (key : pyval)
| TypeError (what : string)
| AttributeError (name : string)
| UnboundLocalError (name : string)
| TransportError (what : string).

(** One call of [session.request].  The URL the source passes is
    [urljoin(req_base, req_path)]; the two arguments of [urljoin] are kept
    apart.  [req_session_params] are the default query parameters the
    session carries. *)
Record http_request : Type := mkRequest {
  req_method : string;
  req_base : string;
  req_path : string;
  req_params : dict;
  req_proxies : pyval;
  req_session_params : dict
}.

(** What comes back from [session.request(...).json()]: a decoded body, or
    a failure below the client (connection, timeout, a body that is not
    JSON). *)
Inductive reply : Type :=
| Body (v : pyval)
| Fails (what : string).

(** A line written by [print]. *)
Inductive output : Type :=
| PrintFormat (template : string) (arg : pyval)
    (* print(template.format(arg)) *)
| PrintJson (v : pyval).
    (* print(json.dumps(v, sort_keys=True, indent=2)) *)

Record world : Type := mkWorld {
  calls : list http_request;   (* HTTP calls issued so far, oldest first *)
  stdout : list output    (* lines printed so far, oldest first *)
}.

Definition world0 : world := mkWorld [] [].

(** ** The monad of the embedding *)

Inductive result (A : Type) : Type :=
| Ok (a : A)
| Raise (e : exn).
Arguments Raise {A} e.

Definition M (A : Type) : Type := world -> result A * world.

Definition ret {A} (a : A) : M A := fun w => (Ok a, w).
Definition raise {A} (e : exn) : M A := fun w => (Raise e, w).
Definition bind {A B} (m : M A) (k : A -> M B) : M B :=
  fun w =>
    match m w with
    | (Ok a, w') => k a w'
    | (Raise e, w') => (Raise e, w')
    end.

Notation "x <- m ;; k" := (bind m (fun x => k))
  (at level 61, m at next level, right associativity).

(** [try: m except KeyError: h] *)
Definition try_except_KeyError {A} (m : M A) (h : M A) : M A :=
  fun w =>
    match m w with
    | (Raise (KeyError _), w') => h w'
    | r => r
    end.

Definition print (o : output) : M unit :=
  fun w => (Ok tt, mkWorld (calls w) (stdout w ++ [o])).

(** [d[k]] *)
Definition getitem (d : dict) (k : string) : M pyval :=
  match dict_get k d with
  | Some v => ret v
  | None => raise (KeyError (PStr k))
  end.

(** [v[k]] for an arbitrary value and a string key. *)
Definition subscript (v : pyval) (k : string) : M pyval :=
  match v with
  | PDict d => getitem d k
  | PStr _ => raise (TypeError "string indices must be integers")
  | PList _ => raise (TypeError "list indices must be integers or slices")
  | _ => raise (TypeError "object is not subscriptable")
  end.

(** ** Module-level constants *)

Definition DEFAULT_URL : string := "https://httpapi.com/api/".
Definition MAX_RECORDS : Z := 50%Z.

(** ** Address *)

Record Address : Type := mkAddress {
  line_1 : pyval;
  line_2 : pyval;
  line_3 : pyval;
  city : pyval;
  state : pyval;
  country : pyval;
  zipcode : pyval
}.

Definition to_params (self : Address) : dict :=
  [ ("address-line-1", line_1 self);
    ("self-line-2", line_2 self);
    ("self-line-3", line_3 self);
    ("city", city self);
    ("state", state self);
    ("country", country self);
    ("zipcode", zipcode self) ].

(** ** check_error and append_slash *)

Definition check_error (res : pyval) : M pyval :=
  match res with
  | PDict d =>
      let status := match dict_get "status" d with
                    | Some v => v
                    | None => PNone
                    end in
      if py_truthy status && py_eq_str status "ERROR"
      then (message <- getitem d "message" ;; raise (ResellerError message))
      else ret res
  | _ => ret res
  end.

(** [url.endswith('/')] *)
Fixpoint ends_with_slash (url : string) : bool :=
  match url with
  | EmptyString => false
  | String c EmptyString => (c =? "/")%char
  | String _ rest => ends_with_slash rest
  end.

Definition append_slash (url : string) : string :=
  if negb (ends_with_slash url) then url ++ "/" else url.

(** ** ApiClient *)

Record ApiClient : Type := mkApiClient {
  url : string;
  proxies : pyval;
  session_params : dict   (* self.session.params *)
}.

Definition arg_default (a : option pyval) (d : pyval) : pyval :=
  match a with Some v => v | None => d end.

(** [__init__]: [url] is [None] or a string. *)
Definition ApiClient_init (user_id api_key : pyval) (url : option string)
    (proxies : option pyval) : ApiClient :=
  mkApiClient
    (match url with
     | Some u => if (u =? "")%string then DEFAULT_URL else u
     | None => DEFAULT_URL
     end)
    (arg_default proxies PNone)
    [ ("auth-userid", user_id); ("api-key", api_key) ].

Section Client.

(** The remote service: its answer to a call may depend on the calls that
    came before. *)
Variable transport : list http_request -> http_request -> reply.

Definition request (self : ApiClient) (http_method api_method : string)
    (params : dict) : M pyval :=
  fun w =>
    let path := api_method ++ ".json" in
    let req := mkRequest http_method (append_slash (url self)) path params
                 (proxies self) (session_params self) in
    let w' := mkWorld (calls w ++ [req]) (stdout w) in
    match transport (calls w) req with
    | Body v => (Ok v, w')
    | Fails what => (Raise (TransportError what), w')
    end.

Definition domains_get_details (self : ApiClient) (name : pyval) : M pyval :=
  request self "GET" "domains/details-by-name"
    [ ("domain-name", name); ("options", PStr "All") ].

Definition domains_register (self : ApiClient)
    (domain years ns customer reg_contact admin_contact tech_contact
     billing_contact invoice_option purchase_privacy protect_privacy : pyval)
    : M pyval :=
  res <- request self "POST" "domains/register"
    [ ("domain-name", domain);
      ("years", years);
      ("ns", ns);
      ("customer-id", customer);
      ("reg-contact-id", reg_contact);
      ("admin-contact-id", admin_contact);
      ("tech-contact-id", tech_contact);
      ("billing-contact-id", billing_contact);
      ("invoice-option", invoice_option);
      ("purchase-privacy", purchase_privacy);
      ("protect-privacy", protect_privacy) ] ;;
  check_error res.

Definition domains_default_ns (self : ApiClient) (customer_id : pyval)
    : M pyval :=
  res <- request self "GET" "domains/customer-default-ns"
    [ ("customer-id", customer_id) ] ;;
  check_error res.

Definition contacts_add (self : ApiClient)
    (type name company email : pyval) (address : Address)
    (phone_cc phone customer_id : pyval) : M pyval :=
  let params :=
    [ ("type", type);
      ("name", name);
      ("company", company);
      ("email", email);
      ("phone-cc", phone_cc);
      ("phone", phone);
      ("customer-id", customer_id) ] in
  let params := dict_update params (to_params address) in
  res <- request self "POST" "contacts/add" params ;;
  check_error res.

Definition customers_add (self : ApiClient)
    (username password name company : pyval) (address : Address)
    (phone_cc phone lang_pref : pyval) : M pyval :=
  let params :=
    [ ("username", username);
      ("passwd", password);
      ("name", name);
      ("company", company);
      ("phone-cc", phone_cc);
      ("phone", phone);
      ("lang-pref", lang_pref) ] in
  let params := dict_update params (to_params address) in
  res <- request self "POST" "customers/signup" params ;;
  check_error res.

Definition domains_check_availability (self : ApiClient)
    (domain tlds : pyval) (suggest_alternative : option pyval) : M pyval :=
  res <- request self "GET" "domains/available"
    [ ("domain-name", domain);
      ("tlds", tlds);
      ("suggest-alternative", arg_default suggest_alternative (PBool false)) ] ;;
  check_error res.

Definition dns_activate (self : ApiClient) (domain_name : pyval) : M pyval :=
  details <- domains_get_details self domain_name ;;
  order_id <- subscript details "entityid" ;;
  request self "POST" "dns/activate" [ ("order-id", order_id) ].

Definition dns_search (self : ApiClient) (domain type : pyval)
    (no_of_records host : option pyval) : M pyval :=
  request self "GET" "dns/manage/search-records"
    [ ("domain-name", domain);
      ("type", type);
      ("no-of-records", arg_default no_of_records (PInt 10));
      ("page-no", PInt 1);
      ("host", arg_default host PNone) ].

Definition dns_add_record (self : ApiClient) (record_type : string)
    (domain value : pyval) (host ttl : option pyval) : M pyval :=
  request self "POST" ("dns/manage/add-" ++ record_type ++ "-record")
    [ ("domain-name", domain);
      ("value", value);
      ("host", arg_default host PNone);
      ("ttl", py_or (arg_default ttl PNone) PNone) ].

Definition dns_delete_record (self : ApiClient) (record_type : string)
    (domain value : pyval) (host : option pyval) : M pyval :=
  request self "POST" ("dns/manage/delete-" ++ record_type ++ "-record")
    [ ("domain-name", domain);
      ("value", value);
      ("host", arg_default host PNone) ].

(** *** The per-type methods installed by the module-level loop *)

(** Keyword arguments of a call [f(domain, value, host=..., ttl=...)];
    [None] is a keyword the caller did not give. *)
Record kwargs : Type := mkKwargs {
  kw_host : option pyval;
  kw_ttl : option pyval
}.

Definition dns_method : Type := ApiClient -> pyval -> pyval -> kwargs -> M pyval.

Definition make_funcs (record_type : string) : dns_method * dns_method :=
  let add : dns_method := fun self domain value kw =>
    dns_add_record self record_type domain value (kw_host kw) (kw_ttl kw) in
  let delete : dns_method := fun self domain value kw =>
    match kw_ttl kw with
    | Some _ =>
        raise (TypeError "dns_delete_record() got an unexpected keyword argument 'ttl'")
    | None => dns_delete_record self record_type domain value (kw_host kw)
    end in
  (add, delete).

(** [setattr(ApiClient, name, f)] on the table of installed methods. *)
Fixpoint setattr (name : string) (f : dns_method)
    (table : list (string * dns_method)) : list (string * dns_method) :=
  match table with
  | [] => [(name, f)]
  | (n, g) :: rest =>
      if (n =? name)%string then (name, f) :: rest
      else (n, g) :: setattr name f rest
  end.

Definition installed_methods : list (string * dns_method) :=
  fold_left
    (fun table record_type =>
       let '(add, delete) := make_funcs record_type in
       setattr ("dns_delete_" ++ record_type ++ "_record") delete
         (setattr ("dns_add_" ++ record_type ++ "_record") add table))
    ["ipv4"; "ipv6"; "cname"] [].

(** [getattr(client, name)] for the names the loop installs. *)
Fixpoint find_method (name : string) (table : list (string * dns_method))
    : option dns_method :=
  match table with
  | [] => None
  | (n, f) :: rest => if (n =? name)%string then Some f else find_method name rest
  end.

Definition getattr (name : string) : M dns_method :=
  match find_method name installed_methods with
  | Some f => ret f
  | None => raise (AttributeError name)
  end.

(** ** The command-line frontend *)

(** ['error' in v]: a key of a mapping, an element of a list, a substring
    of a string; any other value is not iterable. *)
Definition substringb (needle hay : string) : bool :=
  match index 0 needle hay with Some _ => true | None => false end.

Definition py_in_str (needle : string) (v : pyval) : M bool :=
  match v with
  | PDict d => ret (dict_has needle d)
  | PList l => ret (existsb (fun x => py_eq_str x needle) l)
  | PStr s => ret (substringb needle s)
  | _ => raise (TypeError "argument is not iterable")
  end.

Definition cmd_activate (client : ApiClient) (args : dict) : M pyval :=
  domain <- getitem args "<domain>" ;;
  dns_activate client domain.

(** The literal mapping of [cmd_domain] and its subscript by an arbitrary
    value. *)
Definition part_for_record_table : list (string * string) :=
  [ ("A", "ipv4"); ("AAAA", "ipv6"); ("CNAME", "cname") ].

Fixpoint table_get (k : string) (t : list (string * string)) : option string :=
  match t with
  | [] => None
  | (k', v) :: t' => if (k' =? k)%string then Some v else table_get k t'
  end.

Definition part_for_record_of (record_type : pyval) : M string :=
  match record_type with
  | PStr s =>
      match table_get s part_for_record_table with
      | Some part => ret part
      | None => raise (KeyError record_type)
      end
  | PList _ => raise (TypeError "unhashable type: 'list'")
  | PDict _ => raise (TypeError "unhashable type: 'dict'")
  | _ => raise (KeyError record_type)
  end.

(** The result is [PNone] both for the bare [return] of the [except]
    branch and for a body that decodes to [None]. *)
Definition cmd_domain (client : ApiClient) (args : dict) : M pyval :=
  found <- try_except_KeyError
             (record_type <- getitem args "<record-type>" ;;
              part <- part_for_record_of record_type ;;
              ret (Some part))
             (record_type <- getitem args "<record-type>" ;;
              _ <- print (PrintFormat "Not a supported record type: {}" record_type) ;;
              ret None) ;;
  match found with
  | None => ret PNone
  | Some part_for_record =>
      is_add <- getitem args "add" ;;
      if py_truthy is_add then
        let method := "dns_add_" ++ part_for_record ++ "_record" in
        f <- getattr method ;;
        domain <- getitem args "<domain>" ;;
        value <- getitem args "<value>" ;;
        name <- getitem args "<name>" ;;
        ttl <- getitem args "--ttl" ;;
        f client domain value (mkKwargs (Some name) (Some ttl))
      else
        is_delete <- getitem args "delete" ;;
        if py_truthy is_delete then
          let method := "dns_delete_" ++ part_for_record ++ "_record" in
          f <- getattr method ;;
          domain <- getitem args "<domain>" ;;
          value <- getitem args "<value>" ;;
          name <- getitem args "<name>" ;;
          f client domain value (mkKwargs (Some name) None)
        else
          is_list <- getitem args "list" ;;
          if py_truthy is_list then
            domain <- getitem args "<domain>" ;;
            record_type <- getitem args "<record-type>" ;;
            name <- getitem args "<name>" ;;
            dns_search client domain record_type
              (Some (PInt MAX_RECORDS)) (Some name)
          else raise (UnboundLocalError "result")
  end.

(** [os.environ]: names to strings. *)
Definition environ := list (string * string).

Fixpoint environ_get (k : string) (env : environ) : option string :=
  match env with
  | [] => None
  | (k', v) :: env' => if (k' =? k)%string then Some v else environ_get k env'
  end.

Definition environ_getitem (env : environ) (k : string) : M string :=
  match environ_get k env with
  | Some v => ret v
  | None => raise (KeyError (PStr k))
  end.

(** [main]: [args] is the mapping [docopt] returns for the command line.
    The value is [None] for Python's [None] and [Some 1] for [return 1]. *)
Definition main (env : environ) (args : dict) : M (option Z) :=
  user_id <- environ_getitem env "RESELLERCLUB_USER_ID" ;;
  api_key <- environ_getitem env "RESELLERCLUB_API_KEY" ;;
  let client := ApiClient_init (PStr user_id) (PStr api_key)
                  (environ_get "RESELLERCLUB_URL" env) None in
  is_activate <- getitem args "activate" ;;
  result <- (if py_truthy is_activate then cmd_activate client args
             else cmd_domain client args) ;;
  match result with
  | PNone => ret None
  | _ =>
      _ <- print (PrintJson result) ;;
      has_error <- py_in_str "error" result ;;
      if has_error then ret (Some 1%Z) else ret None
  end.

(** [run]: [sys.exit(main(sys.argv) or 0)].  The value is the exit status
    of the process; an exception nobody catches ends it with status 1. *)
Definition run (env : environ) (args : dict) (w : world) : Z * world :=
  match main env args w with
  | (Ok (Some code), w') => ((if code =? 0 then 0 else code)%Z, w')
  | (Ok None, w') => (0%Z, w')
  | (Raise _, w') => (1%Z, w')
  end.

End Client.

(** * Vocabulary of the statements *)

(** ** Calls and answers *)

(** [replied transport w k body w']: the call number [k] (from 0) among
    those issued between [w] and [w'] was answered with the decoded body
    [body]. *)
Definition replied (transport : list http_request -> http_request -> reply)
    (w : world) (k : nat) (body : pyval) (w' : world) : Prop :=
  exists r,
    nth_error (calls w') (List.length (calls w) + k) = Some r /\
    transport (firstn (List.length (calls w) + k) (calls w')) r = Body body.

(** The calls issued between [w] and [w']. *)
Definition issued (w w' : world) : list http_request :=
  skipn (List.length (calls w)) (calls w').

(** A body that the service marks as an error. *)
Definition error_body (res : pyval) : Prop :=
  exists d, res = PDict d /\ dict_get "status" d = Some (PStr "ERROR").

(** The inputs the specification lists as not being errors: a value that is not a
    mapping, or a mapping whose [status] is absent, falsy, or different
    from ["ERROR"]. *)
Definition non_error_input (res : pyval) : Prop :=
  (forall d, res <> PDict d) \/
  (exists d, res = PDict d /\
     (dict_get "status" d = None \/
      exists st, dict_get "status" d = Some st /\
        (py_truthy st = false \/ st <> PStr "ERROR"))).

(** ** Concrete clients, bodies and transports *)

Definition example_client : ApiClient :=
  ApiClient_init (PStr "12345") (PStr "secret") None None.

Definition not_found_body : dict :=
  [ ("status", PStr "ERROR"); ("message", PStr "domain not found") ].

(** A mocked transport that answers every call with the same body. *)
Definition constant_transport (body : pyval)
    : list http_request -> http_request -> reply :=
  fun _ _ => Body body.

(** The two calls of [dns_activate]. *)
Definition details_request (self : ApiClient) (name : pyval) : http_request :=
  mkRequest "GET" (append_slash (url self)) "domains/details-by-name.json"
    [ ("domain-name", name); ("options", PStr "All") ]
    (proxies self) (session_params self).

Definition activate_request (self : ApiClient) (order_id : pyval)
    : http_request :=
  mkRequest "POST" (append_slash (url self)) "dns/activate.json"
    [ ("order-id", order_id) ] (proxies self) (session_params self).

Definition activated_body : dict :=
  [ ("entityid", PInt 42); ("status", PStr "ERROR");
    ("message", PStr "already active") ].

(** ** Command lines *)

(** What a command line is once [docopt] has parsed it: a flag of the
    mapping is on when its value is truthy, off when it is there and
    falsy. *)
Definition flag_on (args : dict) (k : string) : Prop :=
  exists v, dict_get k args = Some v /\ py_truthy v = true.

Definition flag_off (args : dict) (k : string) : Prop :=
  exists v, dict_get k args = Some v /\ py_truthy v = false.

Definition add_command (args : dict)
    (record_type domain name value ttl : pyval) : Prop :=
  dict_get "<record-type>" args = Some record_type /\
  flag_on args "add" /\
  dict_get "<domain>" args = Some domain /\
  dict_get "<value>" args = Some value /\
  dict_get "<name>" args = Some name /\
  dict_get "--ttl" args = Some ttl.

Definition delete_command (args : dict)
    (record_type domain name value : pyval) : Prop :=
  dict_get "<record-type>" args = Some record_type /\
  flag_off args "add" /\
  flag_on args "delete" /\
  dict_get "<domain>" args = Some domain /\
  dict_get "<value>" args = Some value /\
  dict_get "<name>" args = Some name.

Definition list_command (args : dict)
    (record_type domain name : pyval) : Prop :=
  dict_get "<record-type>" args = Some record_type /\
  flag_off args "add" /\
  flag_off args "delete" /\
  flag_on args "list" /\
  dict_get "<domain>" args = Some domain /\
  dict_get "<name>" args = Some name.

(** The record types of the usage text with their internal names. *)
Definition record_aliases : list (string * string) :=
  [ ("A", "ipv4"); ("AAAA", "ipv6"); ("CNAME", "cname") ].

Definition example_environ : environ :=
  [ ("RESELLERCLUB_USER_ID", "12345"); ("RESELLERCLUB_API_KEY", "secret") ].

(** [dns example.org add AAAA foo ::1 --ttl 300] *)
Definition example_add_args : dict :=
  [ ("dns", PBool true); ("<domain>", PStr "example.org");
    ("add", PBool true); ("delete", PBool false); ("list", PBool false);
    ("activate", PBool false); ("<record-type>", PStr "AAAA");
    ("<name>", PStr "foo"); ("<value>", PStr "::1"); ("--ttl", PInt 300) ].

(** [dns example.org delete CNAME www example.net] *)
Definition example_delete_args : dict :=
  [ ("dns", PBool true); ("<domain>", PStr "example.org");
    ("add", PBool false); ("delete", PBool true); ("list", PBool false);
    ("activate", PBool false); ("<record-type>", PStr "CNAME");
    ("<name>", PStr "www"); ("<value>", PStr "example.net"); ("--ttl", PNone) ].

(** [dns example.org list A foo] *)
Definition example_list_args : dict :=
  [ ("dns", PBool true); ("<domain>", PStr "example.org");
    ("add", PBool false); ("delete", PBool false); ("list", PBool true);
    ("activate", PBool false); ("<record-type>", PStr "A");
    ("<name>", PStr "foo"); ("<value>", PNone); ("--ttl", PNone) ].

(** [dns example.org add TXT foo hello] *)
Definition example_txt_args : dict :=
  [ ("dns", PBool true); ("<domain>", PStr "example.org");
    ("add", PBool true); ("delete", PBool false); ("list", PBool false);
    ("activate", PBool false); ("<record-type>", PStr "TXT");
    ("<name>", PStr "foo"); ("<value>", PStr "hello"); ("--ttl", PNone) ].

(** The client [main] builds from the environment. *)
Definition client_of_environ (env : environ) (user_id api_key : string)
    : ApiClient :=
  ApiClient_init (PStr user_id) (PStr api_key)
    (environ_get "RESELLERCLUB_URL" env) None.

(** [obtains transport env args w result w1]: with the credentials in the
    environment, the command of [args] runs from [w], returns [result] and
    leaves the world [w1]. *)
Definition obtains (transport : list http_request -> http_request -> reply)
    (env : environ) (args : dict) (w : world)
    (result : pyval) (w1 : world) : Prop :=
  exists user_id api_key,
    environ_get "RESELLERCLUB_USER_ID" env = Some user_id /\
    environ_get "RESELLERCLUB_API_KEY" env = Some api_key /\
    ((flag_on args "activate" /\
      cmd_activate transport (client_of_environ env user_id api_key) args w
      = (Ok result, w1)) \/
     (flag_off args "activate" /\
      cmd_domain transport (client_of_environ env user_id api_key) args w
      = (Ok result, w1))).

(** The specification's reading of a result: its top level has a key only
    if it is a mapping. *)
Definition top_level_has_key (k : string) (result : pyval) : bool :=
  match result with
  | PDict d => dict_has k d
  | _ => false
  end.

(** ** What an operation may send *)

(** A call made through the client [self]: it goes to the client's base
    URL, with the session's parameters and proxies, by GET or POST. *)
Definition from_client (self : ApiClient) (r : http_request) : Prop :=
  req_base r = append_slash (url self) /\
  req_session_params r = session_params self /\
  req_proxies r = proxies self /\
  (req_method r = "GET" \/ req_method r = "POST").

(** [sends self n m]: from any world, [m] issues at most [n] calls, all
    of them through [self], leaves the earlier calls as they were, and
    does not raise ResellerError. *)
Definition sends {A : Type} (self : ApiClient) (n : nat) (m : M A) : Prop :=
  forall w,
    exists l,
      calls (snd (m w)) = (calls w ++ l)%list /\
      Forall (from_client self) l /\
      (List.length l <= n)%nat /\
      (forall msg, fst (m w) <> Raise (ResellerError msg)).

(** [failed transport w what w']: the first call issued after [w] got no
    decoded body; the transport failed with [what]. *)
Definition failed (transport : list http_request -> http_request -> reply)
    (w : world) (what : string) (w' : world) : Prop :=
  exists r,
    nth_error (calls w') (List.length (calls w)) = Some r /\
    transport (calls w) r = Fails what.

Definition failing_transport (what : string)
    : list http_request -> http_request -> reply :=
  fun _ _ => Fails what.

(** * Properties *)

(** ** Strings *)

Lemma string_append_assoc (a b c : string) : (a ++ b) ++ c = a ++ (b ++ c).
Proof.
  induction a as [|ch a IH]; simpl; [reflexivity | now rewrite IH].
Qed.

(** ** The trace of HTTP calls *)

Section Trace.

Variable transport : list http_request -> http_request -> reply.

Lemma issued_app (w w' : world) (l : list http_request) :
  calls w' = (calls w ++ l)%list -> issued w w' = l.
Proof.
  unfold issued. intros ->. now rewrite skipn_app, skipn_all, Nat.sub_diag.
Qed.

Lemma replied_first (w w' : world) (req : http_request)
    (rest : list http_request) (body : pyval) :
  calls w' = (calls w ++ req :: rest)%list ->
  replied transport w 0 body w' ->
  transport (calls w) req = Body body.
Proof.
  intros Hc (r & Hn & Ht). rewrite Hc, Nat.add_0_r in *.
  rewrite nth_error_app2, Nat.sub_diag in Hn by lia. simpl in Hn.
  injection Hn as <-.
  rewrite firstn_app, firstn_all, Nat.sub_diag in Ht. simpl in Ht.
  now rewrite app_nil_r in Ht.
Qed.

Lemma replied_second (w w' : world) (r1 r2 : http_request)
    (rest : list http_request) (body : pyval) :
  calls w' = (calls w ++ r1 :: r2 :: rest)%list ->
  replied transport w 1 body w' ->
  transport (calls w ++ [r1])%list r2 = Body body.
Proof.
  intros Hc (r & Hn & Ht). rewrite Hc in *.
  rewrite nth_error_app2 in Hn by lia.
  replace (List.length (calls w) + 1 - List.length (calls w))%nat with 1%nat in Hn by lia.
  simpl in Hn. injection Hn as <-.
  rewrite firstn_app in Ht.
  replace (List.length (calls w) + 1 - List.length (calls w))%nat with 1%nat in Ht by lia.
  rewrite firstn_all2 in Ht by lia. exact Ht.
Qed.

Lemma intro_replied_first (w w' : world) (req : http_request)
    (rest : list http_request) (body : pyval) :
  calls w' = (calls w ++ req :: rest)%list ->
  transport (calls w) req = Body body ->
  replied transport w 0 body w'.
Proof.
  intros Hc Ht. exists req. rewrite Hc, Nat.add_0_r. split.
  - rewrite nth_error_app2, Nat.sub_diag by lia. reflexivity.
  - rewrite firstn_app, firstn_all, Nat.sub_diag. simpl.
    now rewrite app_nil_r.
Qed.

(** What [request] does to the world, whatever the transport answers. *)
Lemma request_world (self : ApiClient) (http_method api_method : string)
    (params : dict) (w : world) :
  snd (request transport self http_method api_method params w) =
  mkWorld
    (calls w ++ [mkRequest http_method (append_slash (url self))
                   (api_method ++ ".json") params (proxies self)
                   (session_params self)])
    (stdout w).
Proof.
  unfold request. now destruct (transport _ _).
Qed.

Lemma request_result (self : ApiClient) (http_method api_method : string)
    (params : dict) (w : world) :
  fst (request transport self http_method api_method params w) =
  match transport (calls w)
          (mkRequest http_method (append_slash (url self))
             (api_method ++ ".json") params (proxies self)
             (session_params self)) with
  | Body v => Ok v
  | Fails what => Raise (TransportError what)
  end.
Proof.
  unfold request. now destruct (transport _ _).
Qed.

Lemma check_error_world (res : pyval) (w : world) :
  snd (check_error res w) = w.
Proof.
  destruct res; try reflexivity. simpl.
  destruct (py_truthy _ && py_eq_str _ _); [|reflexivity].
  unfold bind, getitem; simpl. now destruct (dict_get "message" d).
Qed.

Lemma check_error_identity (res : pyval) (w : world) :
  ~ error_body res -> check_error res w = (Ok res, w).
Proof.
  intros Hne. destruct res as [| | | | |l|d]; try reflexivity. simpl.
  destruct (dict_get "status" d) as [st|] eqn:Hs; [|reflexivity].
  destruct st as [| | | |s| |]; simpl;
    rewrite ?andb_false_r, ?andb_false_l; try reflexivity.
  destruct (s =? "ERROR")%string eqn:E.
  - apply String.eqb_eq in E; subst s. exfalso. apply Hne. now exists d.
  - now rewrite andb_false_r.
Qed.

Lemma check_error_raises (d : dict) (m : pyval) (w : world) :
  dict_get "status" d = Some (PStr "ERROR") ->
  dict_get "message" d = Some m ->
  check_error (PDict d) w = (Raise (ResellerError m), w).
Proof.
  intros Hs Hm. unfold check_error. rewrite Hs. simpl.
  unfold bind, getitem. now rewrite Hm.
Qed.

(** The shape shared by the operations that wrap their result. *)
Lemma wrapped_world (self : ApiClient) (http_method api_method : string)
    (params : dict) (w : world) :
  snd ((res <- request transport self http_method api_method params ;;
        check_error res) w) =
  snd (request transport self http_method api_method params w).
Proof.
  unfold bind.
  destruct (request transport self http_method api_method params w)
    as [[v|e] w']; simpl; [apply check_error_world | reflexivity].
Qed.


Lemma wrapped_identity (self : ApiClient) (http_method api_method : string)
    (params : dict) (body : pyval) (w : world) :
  ~ error_body body ->
  replied transport w 0 body
    (snd ((res <- request transport self http_method api_method params ;;
           check_error res) w)) ->
  fst ((res <- request transport self http_method api_method params ;;
        check_error res) w) = Ok body.
Proof.
  intros Hne Hr. rewrite wrapped_world, request_world in Hr.
  eapply replied_first in Hr; [|reflexivity].
  unfold bind, request. rewrite Hr. simpl.
  now rewrite (check_error_identity _ Hne).
Qed.

End Trace.

(** ** Address.to_params *)

(** C7: converting an Address built from seven field values to request
    parameters gives exactly seven keys, [city], [state], [country],
    [zipcode] and the three keys of the address lines (spelled
    [address-line-1], [self-line-2] and [self-line-3] in the source), each
    bound to the value given for its field, unchanged. *)
Theorem to_params_reproduces_fields :
  forall l1 l2 l3 c s co z : pyval,
    let p := to_params (mkAddress l1 l2 l3 c s co z) in
    dict_keys p =
      [ "address-line-1"; "self-line-2"; "self-line-3";
        "city"; "state"; "country"; "zipcode" ]%list /\
    dict_get "address-line-1" p = Some l1 /\
    dict_get "self-line-2" p = Some l2 /\
    dict_get "self-line-3" p = Some l3 /\
    dict_get "city" p = Some c /\
    dict_get "state" p = Some s /\
    dict_get "country" p = Some co /\
    dict_get "zipcode" p = Some z.
Proof.
  intros. subst p. repeat split.
Qed.

(** ** check_error and the operations that use it *)

Lemma non_error_input_not_error_body (res : pyval) :
  non_error_input res -> ~ error_body res.
Proof.
  intros [Hnd | (d & -> & Hst)] (d' & Heq & Hs).
  - exact (Hnd d' Heq).
  - injection Heq as <-. destruct Hst as [Hn | (st & Hst & [Hf | Hne])].
    + congruence.
    + rewrite Hs in Hst. injection Hst as <-. discriminate Hf.
    + congruence.
Qed.

(** C10: check_error returns its argument unchanged, and raises nothing,
    on every value that is not a mapping and on every mapping whose status
    is absent, falsy or not "ERROR"; each of the five operations that wrap
    their result returns such a body as it was decoded. *)
Theorem check_error_identity_on_non_errors :
  forall (transport : list http_request -> http_request -> reply)
         (self : ApiClient) (body : pyval) (w : world),
    non_error_input body ->
    check_error body w = (Ok body, w) /\
    (forall domain years ns customer reg_contact admin_contact tech_contact
            billing_contact invoice_option purchase_privacy protect_privacy,
        let out := domains_register transport self domain years ns customer
                     reg_contact admin_contact tech_contact billing_contact
                     invoice_option purchase_privacy protect_privacy w in
        replied transport w 0 body (snd out) -> fst out = Ok body) /\
    (forall customer_id,
        let out := domains_default_ns transport self customer_id w in
        replied transport w 0 body (snd out) -> fst out = Ok body) /\
    (forall type name company email address phone_cc phone customer_id,
        let out := contacts_add transport self type name company email
                     address phone_cc phone customer_id w in
        replied transport w 0 body (snd out) -> fst out = Ok body) /\
    (forall username password name company address phone_cc phone lang_pref,
        let out := customers_add transport self username password name
                     company address phone_cc phone lang_pref w in
        replied transport w 0 body (snd out) -> fst out = Ok body) /\
    (forall domain tlds suggest_alternative,
        let out := domains_check_availability transport self domain tlds
                     suggest_alternative w in
        replied transport w 0 body (snd out) -> fst out = Ok body).
Proof.
  intros transport self body w Hne.
  apply non_error_input_not_error_body in Hne.
  split; [now apply check_error_identity|].
  repeat split; intros; subst out; now apply wrapped_identity.
Qed.


(** *** Concrete instances *)


Lemma check_error_identity_on_non_errors_witness :
  check_error (PDict [("status", PStr "Success")]) world0
  = (Ok (PDict [("status", PStr "Success")]), world0).
Proof.
  apply (check_error_identity_on_non_errors
           (constant_transport PNone) example_client
           (body := PDict [("status", PStr "Success")]) world0).
  right. eexists. split; [reflexivity|].
  right. eexists. split; [reflexivity|].
  right. discriminate.
Defined.

(** ** The operations that return the body as it is *)

Section Unwrapped.

Variable transport : list http_request -> http_request -> reply.


Lemma request_never_reseller_error (self : ApiClient)
    (http_method api_method : string) (params : dict) (m : pyval) (w : world) :
  fst (request transport self http_method api_method params w)
  <> Raise (ResellerError m).
Proof.
  rewrite request_result. now destruct (transport _ _).
Qed.

(** Either the lookup is answered by a mapping that has [entityid], and
    the operation goes on with the activation call; or it stops after the
    lookup with an exception that is not ResellerError. *)
Lemma dns_activate_cases (self : ApiClient) (name : pyval) (w : world) :
  let r1 := details_request self name in
  let w1 := mkWorld (calls w ++ [r1]) (stdout w) in
  (exists d oid,
      transport (calls w) r1 = Body (PDict d) /\
      dict_get "entityid" d = Some oid /\
      dns_activate transport self name w =
      request transport self "POST" "dns/activate" [ ("order-id", oid) ] w1)
  \/
  ((forall d oid, transport (calls w) r1 = Body (PDict d) ->
                  dict_get "entityid" d = Some oid -> False) /\
   snd (dns_activate transport self name w) = w1 /\
   exists e, fst (dns_activate transport self name w) = Raise e /\
             forall m, e <> ResellerError m).
Proof.
  intros r1 w1. subst r1 w1.
  unfold dns_activate, domains_get_details, bind.
  pose proof (request_world transport self "GET" "domains/details-by-name"
                [ ("domain-name", name); ("options", PStr "All") ] w) as Hw.
  pose proof (request_result transport self "GET" "domains/details-by-name"
                [ ("domain-name", name); ("options", PStr "All") ] w) as Hr.
  change (mkRequest "GET" _ _ _ _ _) with (details_request self name) in Hw, Hr.
  destruct (request transport self "GET" "domains/details-by-name" _ w)
    as [res w1]. simpl in Hw, Hr. subst w1 res.
  destruct (transport (calls w) (details_request self name)) as [v|what].
  - destruct v as [ |b|z|f|s|l|d];
      try (right; split; [intros; discriminate|];
           split; [reflexivity|]; eexists; split; [reflexivity|];
           intros; discriminate).
    unfold subscript, getitem.
    destruct (dict_get "entityid" d) as [oid|] eqn:He.
    + left. exists d, oid. repeat split; assumption || reflexivity.
    + right. split; [intros d' oid' Hd Hoid; injection Hd as <-; congruence|].
      split; [reflexivity|]. eexists. split; [reflexivity|]. intros; discriminate.
  - right. split; [intros; discriminate|].
    split; [reflexivity|]. eexists. split; [reflexivity|]. intros; discriminate.
Qed.

Lemma dns_activate_issued (self : ApiClient) (name : pyval) (w : world) :
  let w' := snd (dns_activate transport self name w) in
  calls w' = (calls w ++ [details_request self name])%list \/
  exists d oid,
    transport (calls w) (details_request self name) = Body (PDict d) /\
    dict_get "entityid" d = Some oid /\
    calls w' = (calls w ++ [details_request self name;
                            activate_request self oid])%list.
Proof.
  intros w'. subst w'.
  destruct (dns_activate_cases self name w)
    as [(d & oid & Ht & He & Heq) | (_ & Hw & _)].
  - right. exists d, oid. repeat split; try assumption.
    rewrite Heq, request_world. simpl. now rewrite <- app_assoc.
  - left. now rewrite Hw.
Qed.

End Unwrapped.

Lemma dns_activate_raw (transport : list http_request -> http_request -> reply)
    (self : ApiClient) (domain_name : pyval) (d : dict)
    (entityid body : pyval) (w : world) :
  replied transport w 0 (PDict d)
    (snd (dns_activate transport self domain_name w)) ->
  dict_get "entityid" d = Some entityid ->
  replied transport w 1 body
    (snd (dns_activate transport self domain_name w)) ->
  fst (dns_activate transport self domain_name w) = Ok body.
Proof.
  intros H0 He H1.
  destruct (dns_activate_cases transport self domain_name w)
    as [(d' & oid & Ht & He' & Heq) | (Hno & Hw & _)].
  - rewrite Heq in *. rewrite request_world in H1. simpl in H1.
    rewrite <- app_assoc in H1. simpl in H1.
    eapply replied_second in H1; [|reflexivity].
    rewrite request_result. simpl. now rewrite H1.
  - exfalso. rewrite Hw in H0.
    eapply replied_first in H0; [|reflexivity].
    exact (Hno d entityid H0 He).
Qed.





(** ** dns_activate: the lookup, then the activation *)



(** ** The frontend *)

Lemma table_get_alias (t alias : string) :
  In (t, alias) record_aliases ->
  table_get t part_for_record_table = Some alias.
Proof.
  intros [H | [H | [H | []]]]; injection H as <- <-; reflexivity.
Qed.

Lemma table_get_unsupported (s : string) :
  ~ In s ["A"; "AAAA"; "CNAME"]%list ->
  table_get s part_for_record_table = None.
Proof.
  intros Hn.
  assert (H1 : ("A" =? s)%string = false)
    by (apply String.eqb_neq; intros <-; apply Hn; simpl; tauto).
  assert (H2 : ("AAAA" =? s)%string = false)
    by (apply String.eqb_neq; intros <-; apply Hn; simpl; tauto).
  assert (H3 : ("CNAME" =? s)%string = false)
    by (apply String.eqb_neq; intros <-; apply Hn; simpl; tauto).
  unfold part_for_record_table, table_get. now rewrite H1, H2, H3.
Qed.

Section Frontend.

Variable transport : list http_request -> http_request -> reply.

Lemma getattr_installed (t alias : string) (w : world) :
  In (t, alias) record_aliases ->
  getattr transport ("dns_add_" ++ alias ++ "_record") w
  = (Ok (fst (make_funcs transport alias)), w) /\
  getattr transport ("dns_delete_" ++ alias ++ "_record") w
  = (Ok (snd (make_funcs transport alias)), w).
Proof.
  intros [H | [H | [H | []]]]; injection H as <- <-; split; reflexivity.
Qed.

Lemma cmd_domain_add (client : ApiClient) (args : dict) (t alias : string)
    (domain name value ttl : pyval) (w : world) :
  In (t, alias) record_aliases ->
  add_command args (PStr t) domain name value ttl ->
  cmd_domain transport client args w
  = dns_add_record transport client alias domain value (Some name) (Some ttl) w.
Proof.
  intros Hin (Hrt & (a & Ha & Hat) & Hd & Hv & Hn & Httl).
  pose proof (table_get_alias Hin) as Htab.
  destruct (getattr_installed w Hin) as [Hget _].
  unfold cmd_domain, try_except_KeyError, bind, getitem, part_for_record_of, ret.
  rewrite Hrt, Htab, Ha, Hat, Hget, Hd, Hv, Hn, Httl.
  reflexivity.
Qed.

Lemma cmd_domain_delete (client : ApiClient) (args : dict) (t alias : string)
    (domain name value : pyval) (w : world) :
  In (t, alias) record_aliases ->
  delete_command args (PStr t) domain name value ->
  cmd_domain transport client args w
  = dns_delete_record transport client alias domain value (Some name) w.
Proof.
  intros Hin (Hrt & (a & Ha & Hat) & (b & Hb & Hbt) & Hd & Hv & Hn).
  pose proof (table_get_alias Hin) as Htab.
  destruct (getattr_installed w Hin) as [_ Hget].
  unfold cmd_domain, try_except_KeyError, bind, getitem, part_for_record_of, ret.
  rewrite Hrt, Htab, Ha, Hat, Hb, Hbt, Hget, Hd, Hv, Hn.
  reflexivity.
Qed.

Lemma cmd_domain_list (client : ApiClient) (args : dict) (t alias : string)
    (domain name : pyval) (w : world) :
  In (t, alias) record_aliases ->
  list_command args (PStr t) domain name ->
  cmd_domain transport client args w
  = dns_search transport client domain (PStr t) (Some (PInt MAX_RECORDS))
      (Some name) w.
Proof.
  intros Hin (Hrt & (a & Ha & Hat) & (b & Hb & Hbt) & (c & Hc & Hct) & Hd & Hn).
  pose proof (table_get_alias Hin) as Htab.
  unfold cmd_domain, try_except_KeyError, bind, getitem, part_for_record_of, ret.
  rewrite Hrt, Htab, Ha, Hat, Hb, Hbt, Hc, Hct, Hd, Hn.
  reflexivity.
Qed.

Lemma cmd_domain_unsupported (client : ApiClient) (args : dict) (s : string)
    (w : world) :
  dict_get "<record-type>" args = Some (PStr s) ->
  ~ In s ["A"; "AAAA"; "CNAME"]%list ->
  cmd_domain transport client args w
  = (Ok PNone,
     mkWorld (calls w)
       (stdout w ++ [PrintFormat "Not a supported record type: {}" (PStr s)])).
Proof.
  intros Hrt Hn. pose proof (table_get_unsupported Hn) as Htab.
  unfold cmd_domain, try_except_KeyError, bind, getitem, part_for_record_of, ret.
  rewrite Hrt, Htab. reflexivity.
Qed.

End Frontend.

(** *** Example command lines *)

Lemma example_add_command :
  add_command example_add_args (PStr "AAAA") (PStr "example.org")
    (PStr "foo") (PStr "::1") (PInt 300).
Proof.
  repeat split. exists (PBool true). split; reflexivity.
Qed.

Lemma example_delete_command :
  delete_command example_delete_args (PStr "CNAME") (PStr "example.org")
    (PStr "www") (PStr "example.net").
Proof.
  repeat split.
  - exists (PBool false). split; reflexivity.
  - exists (PBool true). split; reflexivity.
Qed.

Lemma example_list_command :
  list_command example_list_args (PStr "A") (PStr "example.org") (PStr "foo").
Proof.
  repeat split.
  - exists (PBool false). split; reflexivity.
  - exists (PBool false). split; reflexivity.
  - exists (PBool true). split; reflexivity.
Qed.

(** *** Dispatch by record type *)

(** C6: for each supported record type, A with ipv4, AAAA with ipv6 and
    CNAME with cname, the add command issues one POST to
    dns/manage/add-{alias}-record and the delete command one POST to
    dns/manage/delete-{alias}-record. *)
Theorem add_delete_dispatch_to_alias_path :
  forall (transport : list http_request -> http_request -> reply)
         (client : ApiClient) (args : dict) (t alias : string) (w : world),
    In (t, alias) [ ("A", "ipv4"); ("AAAA", "ipv6"); ("CNAME", "cname") ]%list ->
    (forall domain name value ttl,
        add_command args (PStr t) domain name value ttl ->
        exists r,
          issued w (snd (cmd_domain transport client args w)) = [r] /\
          req_method r = "POST" /\
          req_path r = "dns/manage/add-" ++ alias ++ "-record.json") /\
    (forall domain name value,
        delete_command args (PStr t) domain name value ->
        exists r,
          issued w (snd (cmd_domain transport client args w)) = [r] /\
          req_method r = "POST" /\
          req_path r = "dns/manage/delete-" ++ alias ++ "-record.json").
Proof.
  intros transport client args t alias w Hin. split.
  - intros domain name value ttl Hc.
    rewrite (cmd_domain_add transport client w Hin Hc).
    unfold dns_add_record. rewrite request_world.
    eexists. split; [apply issued_app; reflexivity|]. simpl. split; [reflexivity|].
    now rewrite !string_append_assoc.
  - intros domain name value Hc.
    rewrite (cmd_domain_delete transport client w Hin Hc).
    unfold dns_delete_record. rewrite request_world.
    eexists. split; [apply issued_app; reflexivity|]. simpl. split; [reflexivity|].
    now rewrite !string_append_assoc.
Qed.

Lemma add_delete_dispatch_to_alias_path_witness :
  exists r,
    issued world0
      (snd (cmd_domain (constant_transport (PDict [])) example_client
              example_add_args world0)) = [r] /\
    req_method r = "POST" /\
    req_path r = "dns/manage/add-ipv6-record.json".
Proof.
  apply (proj1 (add_delete_dispatch_to_alias_path
                  (constant_transport (PDict [])) example_client
                  example_add_args (t := "AAAA") (alias := "ipv6") world0
                  (or_intror (or_introl eq_refl))))
    with (domain := PStr "example.org") (name := PStr "foo")
         (value := PStr "::1") (ttl := PInt 300).
  repeat split. exists (PBool true). split; reflexivity.
Defined.

(** *** The ttl of an added record *)



(** *** Listing records *)

(** C9: for every supported record type the list command issues a single
    search call that carries no-of-records=50 and page-no=1, whatever the
    command line is otherwise, and whose type parameter is the record type
    as the user wrote it (A, AAAA, CNAME), not its internal name. *)
Theorem list_requests_first_page_of_fifty :
  forall (transport : list http_request -> http_request -> reply)
         (client : ApiClient) (args : dict) (t : string)
         (domain name : pyval) (w : world),
    In t [ "A"; "AAAA"; "CNAME" ]%list ->
    list_command args (PStr t) domain name ->
    exists r,
      issued w (snd (cmd_domain transport client args w)) = [r] /\
      req_method r = "GET" /\
      req_path r = "dns/manage/search-records.json" /\
      dict_get "no-of-records" (req_params r) = Some (PInt 50) /\
      dict_get "page-no" (req_params r) = Some (PInt 1) /\
      dict_get "type" (req_params r) = Some (PStr t) /\
      dict_get "host" (req_params r) = Some name /\
      dict_get "domain-name" (req_params r) = Some domain.
Proof.
  intros transport client args t domain name w Hin Hc.
  assert (Ha : exists alias, In (t, alias) record_aliases).
  { destruct Hin as [<- | [<- | [<- | []]]];
      [exists "ipv4" | exists "ipv6" | exists "cname"]; simpl; tauto. }
  destruct Ha as (alias & Ha).
  rewrite (cmd_domain_list transport client w Ha Hc).
  unfold dns_search. rewrite request_world.
  eexists. split; [apply issued_app; reflexivity|]. simpl.
  repeat split.
Qed.

Lemma list_requests_first_page_of_fifty_witness :
  exists r,
    issued world0
      (snd (cmd_domain (constant_transport (PDict [])) example_client
              example_list_args world0)) = [r] /\
    dict_get "no-of-records" (req_params r) = Some (PInt 50) /\
    dict_get "page-no" (req_params r) = Some (PInt 1) /\
    dict_get "type" (req_params r) = Some (PStr "A").
Proof.
  destruct (list_requests_first_page_of_fifty
              (constant_transport (PDict [])) example_client
              (args := example_list_args) (t := "A")
              (domain := PStr "example.org") (name := PStr "foo") world0)
    as (r & Hi & _ & _ & Hn & Hp & Ht & _).
  - simpl. tauto.
  - repeat split.
    + exists (PBool false). split; reflexivity.
    + exists (PBool false). split; reflexivity.
    + exists (PBool true). split; reflexivity.
  - exists r. repeat split; assumption.
Defined.

(** *** main and run *)

Section Main.

Variable transport : list http_request -> http_request -> reply.

Lemma main_obtained (env : environ) (args : dict) (w w1 : world)
    (result : pyval) :
  obtains transport env args w result w1 ->
  main transport env args w =
  match result with
  | PNone => (Ok None, w1)
  | _ =>
      (_ <- print (PrintJson result) ;;
       has_error <- py_in_str "error" result ;;
       if has_error then ret (Some 1%Z) else ret None) w1
  end.
Proof.
  intros (user_id & api_key & Hu & Hk & Hcmd).
  unfold main, bind at 1 2 3 4, environ_getitem, getitem.
  rewrite Hu. unfold ret at 1. rewrite Hk. unfold ret at 1.
  fold (client_of_environ env user_id api_key).
  destruct Hcmd as [((a & Ha & Hat) & Hc) | ((a & Ha & Hat) & Hc)];
    rewrite Ha; unfold ret at 1; rewrite Hat, Hc;
    destruct result; reflexivity.
Qed.

End Main.

(** C5: a record type that is not A, AAAA or CNAME, on a command line that
    is not activate, makes the frontend print its message and nothing
    else, issue no HTTP call and return no result; main returns None and
    the process exits with status 0. *)
Theorem unsupported_record_type_exits_zero :
  forall (transport : list http_request -> http_request -> reply)
         (env : environ) (args : dict) (s user_id api_key : string)
         (w : world),
    environ_get "RESELLERCLUB_USER_ID" env = Some user_id ->
    environ_get "RESELLERCLUB_API_KEY" env = Some api_key ->
    flag_off args "activate" ->
    dict_get "<record-type>" args = Some (PStr s) ->
    ~ In s [ "A"; "AAAA"; "CNAME" ]%list ->
    let w' := mkWorld (calls w)
                (stdout w ++
                 [PrintFormat "Not a supported record type: {}" (PStr s)]) in
    (forall client, cmd_domain transport client args w = (Ok PNone, w')) /\
    main transport env args w = (Ok None, w') /\
    run transport env args w = (0%Z, w') /\
    issued w w' = [].
Proof.
  intros transport env args s user_id api_key w Hu Hk Hact Hrt Hn w'.
  assert (Hcmd : forall client,
             cmd_domain transport client args w = (Ok PNone, w'))
    by (intros client; now apply cmd_domain_unsupported).
  assert (Hmain : main transport env args w = (Ok None, w')).
  { rewrite (@main_obtained transport env args w w' PNone); [reflexivity|].
    exists user_id, api_key. repeat split; try assumption.
    right. split; [assumption | apply Hcmd]. }
  repeat split; try assumption.
  - unfold run. now rewrite Hmain.
  - apply issued_app. simpl. now rewrite app_nil_r.
Qed.

Lemma unsupported_record_type_exits_zero_witness :
  run (constant_transport (PDict [])) example_environ example_txt_args world0
  = (0%Z,
     mkWorld [] [PrintFormat "Not a supported record type: {}" (PStr "TXT")]).
Proof.
  apply (unsupported_record_type_exits_zero
           (constant_transport (PDict [])) example_environ
           (args := example_txt_args) (s := "TXT")
           (user_id := "12345") (api_key := "secret") world0).
  - reflexivity.
  - reflexivity.
  - exists (PBool false). split; reflexivity.
  - reflexivity.
  - simpl. intros [H | [H | [H | []]]]; discriminate H.
Defined.

(** C4, as the code has it: when the result the frontend obtained is a
    mapping, it is printed and the process exits with status 1 if the
    mapping has a key "error" at its top level, and with status 0 if it
    has not. *)
Theorem exit_status_follows_error_key :
  forall (transport : list http_request -> http_request -> reply)
         (env : environ) (args : dict) (d : dict) (w w1 : world),
    obtains transport env args w (PDict d) w1 ->
    run transport env args w
    = ((if dict_has "error" d then 1 else 0)%Z,
       mkWorld (calls w1) (stdout w1 ++ [PrintJson (PDict d)])).
Proof.
  intros transport env args d w w1 Hob.
  unfold run. rewrite (main_obtained Hob).
  unfold bind, print, py_in_str, ret.
  now destruct (dict_has "error" d).
Qed.

Lemma example_list_obtains (body : pyval) :
  obtains (constant_transport body) example_environ example_list_args world0
    body
    (snd (cmd_domain (constant_transport body) example_client
            example_list_args world0)).
Proof.
  exists "12345", "secret". split; [reflexivity|]. split; [reflexivity|].
  right. split; [exists (PBool false); split; reflexivity | reflexivity].
Defined.

Lemma exit_status_follows_error_key_witness :
  fst (run (constant_transport (PDict [("error", PStr "no such record")]))
         example_environ example_list_args world0) = 1%Z.
Proof.
  rewrite (exit_status_follows_error_key
             (example_list_obtains (PDict [("error", PStr "no such record")]))).
  reflexivity.
Defined.

(** A service that answers the search with the number 5: the result is
    obtained and printed, it has no key at all, and the membership test
    ['error' in 5] raises TypeError, so that the process ends with status
    1 where the specification gives 0. *)
Lemma number_result_exits_one :
  obtains (constant_transport (PInt 5)) example_environ example_list_args
    world0 (PInt 5)
    (snd (cmd_domain (constant_transport (PInt 5)) example_client
            example_list_args world0)) /\
  top_level_has_key "error" (PInt 5) = false /\
  stdout (snd (run (constant_transport (PInt 5)) example_environ
                 example_list_args world0)) = [PrintJson (PInt 5)] /\
  fst (main (constant_transport (PInt 5)) example_environ
         example_list_args world0)
  = Raise (TypeError "argument is not iterable") /\
  fst (run (constant_transport (PInt 5)) example_environ
         example_list_args world0) = 1%Z /\
  fst (run (constant_transport (PInt 5)) example_environ
         example_list_args world0) <> 0%Z.
Proof.
  split; [apply example_list_obtains|].
  repeat split. discriminate.
Qed.

(** * Further properties of the code *)

(** ** What an operation may send *)

Section Sends.

Variable transport : list http_request -> http_request -> reply.
Variable self : ApiClient.

Lemma sends_weaken {A : Type} (n n' : nat) (m : M A) :
  (n <= n')%nat -> sends self n m -> sends self n' m.
Proof.
  intros Hle Hm w. destruct (Hm w) as (l & Hc & Hf & Hl & Hr).
  exists l. repeat split; try assumption. lia.
Qed.

Lemma sends_ret {A : Type} (a : A) : sends self 0 (ret a).
Proof.
  intros w. exists []%list. simpl. rewrite app_nil_r.
  repeat split; [constructor | lia | discriminate].
Qed.

Lemma sends_raise {A : Type} (e : exn) :
  (forall msg, e <> ResellerError msg) -> sends self 0 (@raise A e).
Proof.
  intros He w. exists []%list. simpl. rewrite app_nil_r.
  repeat split; [constructor | lia |].
  intros msg H. injection H as ->. exact (He msg eq_refl).
Qed.

Lemma sends_bind {A B : Type} (n k : nat) (m : M A) (f : A -> M B) :
  sends self n m -> (forall a, sends self k (f a)) -> sends self (n + k) (bind m f).
Proof.
  intros Hm Hf w. destruct (Hm w) as (l & Hc & Hl & Hn & Hr).
  unfold bind. destruct (m w) as [[a|e] w1]; simpl in *.
  - destruct (Hf a w1) as (l' & Hc' & Hl' & Hn' & Hr').
    exists (l ++ l')%list. rewrite Hc', Hc, app_assoc.
    repeat split; try assumption.
    + apply Forall_app. now split.
    + rewrite length_app. lia.
  - exists l. repeat split; try assumption; [lia|].
    intros msg H. injection H as ->. exact (Hr msg eq_refl).
Qed.

Lemma sends_bind_pure {A B : Type} (k : nat) (m : M A) (f : A -> M B) :
  sends self 0 m -> (forall a, sends self k (f a)) -> sends self k (bind m f).
Proof.
  intros Hm Hf. change k with (0 + k)%nat. now apply sends_bind.
Qed.

Lemma sends_then_pure {A B : Type} (n : nat) (m : M A) (f : A -> M B) :
  sends self n m -> (forall a, sends self 0 (f a)) -> sends self n (bind m f).
Proof.
  intros Hm Hf. apply sends_weaken with (n := (n + 0)%nat); [lia|].
  now apply sends_bind.
Qed.

Lemma sends_getitem (d : dict) (k : string) : sends self 0 (getitem d k).
Proof.
  unfold getitem. destruct (dict_get k d);
    [apply sends_ret | apply sends_raise; discriminate].
Qed.

Lemma sends_subscript (v : pyval) (k : string) : sends self 0 (subscript v k).
Proof.
  destruct v; simpl; try (apply sends_raise; discriminate).
  apply sends_getitem.
Qed.

Lemma sends_print (o : output) : sends self 0 (print o).
Proof.
  intros w. exists []%list. simpl. rewrite app_nil_r.
  repeat split; [constructor | lia | discriminate].
Qed.

Lemma sends_environ_getitem (env : environ) (k : string) :
  sends self 0 (environ_getitem env k).
Proof.
  unfold environ_getitem. destruct (environ_get k env);
    [apply sends_ret | apply sends_raise; discriminate].
Qed.

Lemma sends_try_except_KeyError {A : Type} (k : nat) (m h : M A) :
  sends self 0 m -> sends self k h -> sends self k (try_except_KeyError m h).
Proof.
  intros Hm Hh w. destruct (Hm w) as (l & Hc & Hl & Hn & Hr).
  unfold try_except_KeyError.
  destruct (m w) as [[a|e] w1]; simpl in *.
  - exists l. repeat split; try assumption. lia.
  - destruct l; [|simpl in Hn; lia]. rewrite app_nil_r in Hc.
    destruct e; try (exists []%list; simpl; rewrite Hc, app_nil_r;
                     repeat split; [constructor | lia | assumption]).
    destruct (Hh w1) as (l' & Hc' & Hl' & Hn' & Hr').
    exists l'. rewrite Hc', Hc. repeat split; assumption.
Qed.

Lemma sends_request (http_method api_method : string) (params : dict) :
  http_method = "GET" \/ http_method = "POST" ->
  sends self 1 (request transport self http_method api_method params).
Proof.
  intros Hm w. eexists. rewrite request_world. simpl.
  split; [reflexivity|]. split; [|split; [simpl; lia|]].
  - constructor; [|constructor]. repeat split. exact Hm.
  - intros msg. apply request_never_reseller_error.
Qed.

Lemma sends_dns_activate (domain_name : pyval) :
  sends self 2 (dns_activate transport self domain_name).
Proof.
  unfold dns_activate, domains_get_details.
  change 2%nat with (1 + 1)%nat. apply sends_bind.
  - apply sends_request. now left.
  - intros details. apply sends_bind_pure; [apply sends_subscript|].
    intros order_id. apply sends_request. now right.
Qed.

Lemma sends_dns_search (domain type : pyval) (no_of_records host : option pyval) :
  sends self 1 (dns_search transport self domain type no_of_records host).
Proof.
  apply sends_request. now left.
Qed.

Lemma sends_dns_add_record (record_type : string) (domain value : pyval)
    (host ttl : option pyval) :
  sends self 1 (dns_add_record transport self record_type domain value host ttl).
Proof.
  apply sends_request. now right.
Qed.

Lemma sends_dns_delete_record (record_type : string) (domain value : pyval)
    (host : option pyval) :
  sends self 1 (dns_delete_record transport self record_type domain value host).
Proof.
  apply sends_request. now right.
Qed.

Lemma sends_installed (name : string) (f : dns_method) (domain value : pyval)
    (kw : kwargs) :
  find_method name (installed_methods transport) = Some f ->
  sends self 1 (f self domain value kw).
Proof.
  change (installed_methods transport) with
    [ ("dns_add_ipv4_record", fst (make_funcs transport "ipv4"));
      ("dns_delete_ipv4_record", snd (make_funcs transport "ipv4"));
      ("dns_add_ipv6_record", fst (make_funcs transport "ipv6"));
      ("dns_delete_ipv6_record", snd (make_funcs transport "ipv6"));
      ("dns_add_cname_record", fst (make_funcs transport "cname"));
      ("dns_delete_cname_record", snd (make_funcs transport "cname")) ]%list.
  unfold find_method.
  repeat match goal with
         | |- context [(?a =? name)%string] => destruct (a =? name)%string
         end;
    intros H; try discriminate H; injection H as <-; simpl;
    try apply sends_dns_add_record;
    (destruct (kw_ttl kw);
     [apply sends_weaken with (n := 0%nat); [lia|];
      apply sends_raise; discriminate
     | apply sends_dns_delete_record]).
Qed.

Lemma sends_bind_getitem {B : Type} (n : nat) (d : dict) (k : string)
    (v : pyval) (g : pyval -> M B) :
  dict_get k d = Some v ->
  sends self n (g v) ->
  sends self n (x <- getitem d k ;; g x).
Proof.
  intros Hd Hg w. unfold bind, getitem. rewrite Hd. exact (Hg w).
Qed.

Lemma sends_bind_getattr {B : Type} (k : nat) (name : string)
    (g : dns_method -> M B) :
  (forall f, find_method name (installed_methods transport) = Some f ->
             sends self k (g f)) ->
  sends self k (f <- getattr transport name ;; g f).
Proof.
  intros H w. unfold bind, getattr.
  destruct (find_method name (installed_methods transport)) as [f|] eqn:Hf.
  - exact (H f eq_refl w).
  - exists []%list. unfold raise. simpl. rewrite app_nil_r.
    repeat split; [constructor | lia | discriminate].
Qed.

End Sends.

Section FrontendSends.

Variable transport : list http_request -> http_request -> reply.

Lemma sends_cmd_activate (client : ApiClient) (args : dict) :
  sends client 2 (cmd_activate transport client args).
Proof.
  unfold cmd_activate. apply sends_bind_pure; [apply sends_getitem|].
  intros domain. apply sends_dns_activate.
Qed.

Lemma sends_cmd_domain (client : ApiClient) (args : dict) :
  sends client 1 (cmd_domain transport client args).
Proof.
  unfold cmd_domain. apply sends_bind_pure.
  - apply sends_try_except_KeyError.
    + apply sends_bind_pure; [apply sends_getitem|]. intros record_type.
      apply sends_bind_pure; [|intros; apply sends_ret].
      unfold part_for_record_of.
      destruct record_type; try (apply sends_raise; discriminate).
      destruct (table_get s part_for_record_table);
        [apply sends_ret | apply sends_raise; discriminate].
    + apply sends_bind_pure; [apply sends_getitem|]. intros record_type.
      apply sends_bind_pure; [apply sends_print|]. intros _. apply sends_ret.
  - intros [part|];
      [|apply sends_weaken with (n := 0%nat); [lia | apply sends_ret]].
    apply sends_bind_pure; [apply sends_getitem|]. intros is_add.
    destruct (py_truthy is_add).
    { apply sends_bind_getattr. intros f Hf.
      apply sends_bind_pure; [apply sends_getitem|]. intros domain.
      apply sends_bind_pure; [apply sends_getitem|]. intros value.
      apply sends_bind_pure; [apply sends_getitem|]. intros name.
      apply sends_bind_pure; [apply sends_getitem|]. intros ttl.
      exact (@sends_installed transport client _ f domain value _ Hf). }
    apply sends_bind_pure; [apply sends_getitem|]. intros is_delete.
    destruct (py_truthy is_delete).
    { apply sends_bind_getattr. intros f Hf.
      apply sends_bind_pure; [apply sends_getitem|]. intros domain.
      apply sends_bind_pure; [apply sends_getitem|]. intros value.
      apply sends_bind_pure; [apply sends_getitem|]. intros name.
      exact (@sends_installed transport client _ f domain value _ Hf). }
    apply sends_bind_pure; [apply sends_getitem|]. intros is_list.
    destruct (py_truthy is_list).
    + apply sends_bind_pure; [apply sends_getitem|]. intros domain.
      apply sends_bind_pure; [apply sends_getitem|]. intros record_type.
      apply sends_bind_pure; [apply sends_getitem|]. intros name.
      apply sends_dns_search.
    + apply sends_weaken with (n := 0%nat); [lia|].
      apply sends_raise. discriminate.
Qed.

Lemma sends_py_in_str (client : ApiClient) (needle : string) (v : pyval) :
  sends client 0 (py_in_str needle v).
Proof.
  destruct v; simpl; try apply sends_ret; apply sends_raise; discriminate.
Qed.

Lemma main_credentials (env : environ) (args : dict)
    (user_id api_key : string) (w : world) :
  environ_get "RESELLERCLUB_USER_ID" env = Some user_id ->
  environ_get "RESELLERCLUB_API_KEY" env = Some api_key ->
  main transport env args w =
  (is_activate <- getitem args "activate" ;;
   result <- (if py_truthy is_activate
              then cmd_activate transport
                     (client_of_environ env user_id api_key) args
              else cmd_domain transport
                     (client_of_environ env user_id api_key) args) ;;
   match result with
   | PNone => ret None
   | _ =>
       _ <- print (PrintJson result) ;;
       has_error <- py_in_str "error" result ;;
       if has_error then ret (Some 1%Z) else ret None
   end) w.
Proof.
  intros Hu Hk. unfold main, bind at 1 2, environ_getitem.
  now rewrite Hu, Hk.
Qed.

Lemma main_missing_credentials (env : environ) (args : dict) (w : world) :
  environ_get "RESELLERCLUB_USER_ID" env = None \/
  environ_get "RESELLERCLUB_API_KEY" env = None ->
  exists name,
    main transport env args w = (Raise (KeyError (PStr name)), w) /\
    (name = "RESELLERCLUB_USER_ID" \/ name = "RESELLERCLUB_API_KEY").
Proof.
  intros H. unfold main, bind, environ_getitem.
  destruct (environ_get "RESELLERCLUB_USER_ID" env) as [u|].
  - destruct H as [H|H]; [discriminate H|]. rewrite H.
    eexists. split; [reflexivity | now right].
  - eexists. split; [reflexivity | now left].
Qed.

Lemma sends_main_tail (client : ApiClient) (result : pyval) :
  sends client 0
    (match result with
     | PNone => ret None
     | _ =>
         _ <- print (PrintJson result) ;;
         has_error <- py_in_str "error" result ;;
         if has_error then ret (Some 1%Z) else ret None
     end).
Proof.
  assert (H : sends client 0
                (_ <- print (PrintJson result) ;;
                 has_error <- py_in_str "error" result ;;
                 if has_error then ret (Some 1%Z) else ret None)).
  { apply sends_bind_pure; [apply sends_print|]. intros _.
    apply sends_bind_pure; [apply sends_py_in_str|].
    intros [|]; apply sends_ret. }
  destruct result; try exact H. apply sends_ret.
Qed.

Lemma sends_main (env : environ) (args : dict) (user_id api_key : string) :
  environ_get "RESELLERCLUB_USER_ID" env = Some user_id ->
  environ_get "RESELLERCLUB_API_KEY" env = Some api_key ->
  sends (client_of_environ env user_id api_key) 2 (main transport env args)
  /\
  (flag_off args "activate" ->
   sends (client_of_environ env user_id api_key) 1 (main transport env args)).
Proof.
  intros Hu Hk. split.
  - intros w. rewrite (@main_credentials env args user_id api_key w Hu Hk).
    refine ((_ : sends _ 2 _) w).
    apply sends_bind_pure; [apply sends_getitem|]. intros is_activate.
    apply sends_then_pure; [|intros; apply sends_main_tail].
    destruct (py_truthy is_activate);
      [apply sends_cmd_activate
      | apply sends_weaken with (n := 1%nat); [lia | apply sends_cmd_domain]].
  - intros (a & Ha & Hat) w. rewrite (@main_credentials env args user_id api_key w Hu Hk).
    refine ((_ : sends _ 1 _) w).
    apply sends_bind_getitem with (v := a); [exact Ha|]. rewrite Hat.
    apply sends_then_pure; [apply sends_cmd_domain|].
    intros; apply sends_main_tail.
Qed.

End FrontendSends.

(** ** append_slash *)

Lemma ends_with_slash_append (u : string) : ends_with_slash (u ++ "/") = true.
Proof.
  induction u as [|c u IH]; [reflexivity|].
  simpl. destruct (u ++ "/") eqn:E; [|exact IH].
  destruct u; discriminate E.
Qed.

Lemma ends_with_slash_append_slash (u : string) :
  ends_with_slash (append_slash u) = true.
Proof.
  unfold append_slash. destruct (ends_with_slash u) eqn:E; simpl;
    [exact E | apply ends_with_slash_append].
Qed.

(** X1: The URL that append_slash returns ends with a slash, and applying it
    again changes nothing. *)
Theorem append_slash_idempotent :
  forall u : string,
    ends_with_slash (append_slash u) = true /\
    append_slash (append_slash u) = append_slash u.
Proof.
  intros u. split; [apply ends_with_slash_append_slash|].
  unfold append_slash at 1. now rewrite ends_with_slash_append_slash.
Qed.

(** ** check_error *)

(** X2: check_error raises ResellerError with message [m] exactly when its
    argument is a mapping whose status is "ERROR" and whose message is
    [m]; it never touches the world. *)
Theorem check_error_raises_iff :
  forall (res m : pyval) (w : world),
    snd (check_error res w) = w /\
    (fst (check_error res w) = Raise (ResellerError m) <->
     exists d, res = PDict d /\
               dict_get "status" d = Some (PStr "ERROR") /\
               dict_get "message" d = Some m).
Proof.
  intros res m w. split; [apply check_error_world|]. split.
  - intros H. destruct res as [ |b|z|f|s|l|d]; try discriminate H.
    exists d. split; [reflexivity|]. simpl in H.
    destruct (dict_get "status" d) as [st|] eqn:Hs; [|discriminate H].
    destruct st as [ |b|z|f|s|l|d']; simpl in H;
      rewrite ?andb_false_r in H; try discriminate H.
    destruct (s =? "ERROR")%string eqn:E;
      [|rewrite andb_false_r in H; discriminate H].
    apply String.eqb_eq in E. subst s. split; [reflexivity|].
    simpl in H. unfold bind, getitem in H.
    destruct (dict_get "message" d) as [m'|]; simpl in H;
      [now injection H as -> | discriminate H].
  - intros (d & -> & Hs & Hm). now rewrite (check_error_raises _ _ Hs Hm).
Qed.

(** X3: An error body that carries no message makes check_error raise
    KeyError for the key 'message', not ResellerError. *)
Theorem check_error_without_message :
  forall (d : dict) (w : world),
    dict_get "status" d = Some (PStr "ERROR") ->
    dict_get "message" d = None ->
    check_error (PDict d) w = (Raise (KeyError (PStr "message")), w).
Proof.
  intros d w Hs Hm. unfold check_error. rewrite Hs. simpl.
  unfold bind, getitem. now rewrite Hm.
Qed.

Lemma check_error_without_message_witness :
  check_error (PDict [("status", PStr "ERROR")]) world0
  = (Raise (KeyError (PStr "message")), world0).
Proof.
  apply check_error_without_message; reflexivity.
Defined.

(** ** dns_activate when the lookup gives no entityid *)

(** X4: When the body of the details lookup is a mapping without entityid,
    dns_activate raises KeyError for 'entityid'; when it is not a mapping,
    it raises TypeError.  In both cases the lookup is the only call. *)
Theorem dns_activate_without_entityid :
  forall (transport : list http_request -> http_request -> reply)
         (self : ApiClient) (domain_name body : pyval) (w : world),
    let out := dns_activate transport self domain_name w in
    replied transport w 0 body (snd out) ->
    (forall d, body = PDict d -> dict_get "entityid" d = None) ->
    issued w (snd out) = [details_request self domain_name] /\
    ((exists d, body = PDict d /\
                fst out = Raise (KeyError (PStr "entityid"))) \/
     ((forall d, body <> PDict d) /\
      exists what, fst out = Raise (TypeError what))).
Proof.
  intros transport self domain_name body w out Hr Hno. subst out.
  assert (Ht : transport (calls w) (details_request self domain_name)
               = Body body).
  { destruct (dns_activate_issued transport self domain_name w)
      as [Hc | (d & oid & _ & _ & Hc)];
      eapply replied_first; eassumption. }
  unfold dns_activate, domains_get_details, bind.
  pose proof (request_world transport self "GET" "domains/details-by-name"
                [ ("domain-name", domain_name); ("options", PStr "All") ] w)
    as Hw.
  pose proof (request_result transport self "GET" "domains/details-by-name"
                [ ("domain-name", domain_name); ("options", PStr "All") ] w)
    as Hres.
  change (mkRequest "GET" _ _ _ _ _)
    with (details_request self domain_name) in Hw, Hres.
  rewrite Ht in Hres.
  destruct (request transport self "GET" "domains/details-by-name" _ w)
    as [res w1]. simpl in Hw, Hres. subst w1 res.
  destruct body as [ |b|z|f|s|l|d]; simpl;
    try (split; [apply issued_app; reflexivity|]; right;
         split; [discriminate | eexists; reflexivity]).
  unfold getitem. rewrite (Hno d eq_refl). simpl.
  split; [apply issued_app; reflexivity|]. left. now exists d.
Qed.

Lemma dns_activate_without_entityid_witness :
  fst (dns_activate (constant_transport (PDict not_found_body))
         example_client (PStr "example.org") world0)
  = Raise (KeyError (PStr "entityid")).
Proof.
  destruct (@dns_activate_without_entityid
              (constant_transport (PDict not_found_body)) example_client
              (PStr "example.org") (PDict not_found_body) world0)
    as (_ & [(d & _ & H) | (Hn & _)]).
  - eexists. split; reflexivity.
  - intros d Hd. injection Hd as <-. reflexivity.
  - exact H.
  - exfalso. exact (Hn not_found_body eq_refl).
Defined.

(** ** Failures below the client *)

Lemma request_failed (transport : list http_request -> http_request -> reply)
    (self : ApiClient) (http_method api_method : string) (params : dict)
    (what : string) (w : world) :
  failed transport w what
    (snd (request transport self http_method api_method params w)) ->
  request transport self http_method api_method params w
  = (Raise (TransportError what),
     mkWorld
       (calls w ++ [mkRequest http_method (append_slash (url self))
                      (api_method ++ ".json") params (proxies self)
                      (session_params self)])
       (stdout w)).
Proof.
  intros (r & Hn & Ht). rewrite request_world in Hn. simpl in Hn.
  rewrite nth_error_app2, Nat.sub_diag in Hn by lia. simpl in Hn.
  injection Hn as <-. unfold request. now rewrite Ht.
Qed.

Lemma wrapped_failed (transport : list http_request -> http_request -> reply)
    (self : ApiClient) (http_method api_method : string) (params : dict)
    (what : string) (w : world) :
  failed transport w what
    (snd ((res <- request transport self http_method api_method params ;;
           check_error res) w)) ->
  fst ((res <- request transport self http_method api_method params ;;
        check_error res) w) = Raise (TransportError what).
Proof.
  intros Hf. rewrite wrapped_world in Hf. unfold bind.
  now rewrite (@request_failed _ _ _ _ _ _ _ Hf).
Qed.

(** X5: A failure of the transport on the call of an operation is not caught:
    each operation that makes one call raises it as it is, wrapped or not,
    and dns_activate does when its lookup fails. *)
Theorem transport_failure_propagates :
  forall (transport : list http_request -> http_request -> reply)
         (self : ApiClient) (what : string) (w : world),
    (forall name,
        let out := domains_get_details transport self name w in
        failed transport w what (snd out) ->
        fst out = Raise (TransportError what)) /\
    (forall domain years ns customer reg_contact admin_contact tech_contact
            billing_contact invoice_option purchase_privacy protect_privacy,
        let out := domains_register transport self domain years ns customer
                     reg_contact admin_contact tech_contact billing_contact
                     invoice_option purchase_privacy protect_privacy w in
        failed transport w what (snd out) ->
        fst out = Raise (TransportError what)) /\
    (forall customer_id,
        let out := domains_default_ns transport self customer_id w in
        failed transport w what (snd out) ->
        fst out = Raise (TransportError what)) /\
    (forall type name company email address phone_cc phone customer_id,
        let out := contacts_add transport self type name company email
                     address phone_cc phone customer_id w in
        failed transport w what (snd out) ->
        fst out = Raise (TransportError what)) /\
    (forall username password name company address phone_cc phone lang_pref,
        let out := customers_add transport self username password name
                     company address phone_cc phone lang_pref w in
        failed transport w what (snd out) ->
        fst out = Raise (TransportError what)) /\
    (forall domain tlds suggest_alternative,
        let out := domains_check_availability transport self domain tlds
                     suggest_alternative w in
        failed transport w what (snd out) ->
        fst out = Raise (TransportError what)) /\
    (forall domain type no_of_records host,
        let out := dns_search transport self domain type no_of_records host w in
        failed transport w what (snd out) ->
        fst out = Raise (TransportError what)) /\
    (forall record_type domain value host ttl,
        let out := dns_add_record transport self record_type domain value
                     host ttl w in
        failed transport w what (snd out) ->
        fst out = Raise (TransportError what)) /\
    (forall record_type domain value host,
        let out := dns_delete_record transport self record_type domain value
                     host w in
        failed transport w what (snd out) ->
        fst out = Raise (TransportError what)) /\
    (forall domain_name,
        let out := dns_activate transport self domain_name w in
        failed transport w what (snd out) ->
        fst out = Raise (TransportError what) /\
        issued w (snd out) = [details_request self domain_name]).
Proof.
  intros transport self what w.
  repeat match goal with |- _ /\ _ => split end; intros; subst out;
    try (now apply wrapped_failed);
    try (match goal with
         | H : failed _ _ _ (snd (?op)) |- _ =>
             unfold domains_get_details, dns_search, dns_add_record,
               dns_delete_record in *;
             now rewrite (@request_failed _ _ _ _ _ _ _ H)
         end).
  split.
  - destruct H as (r & Hn & Ht).
    destruct (dns_activate_cases transport self domain_name w)
      as [(d & oid & Hb & _ & Heq) | (_ & Hw & _)].
    + rewrite Heq, request_world in Hn. simpl in Hn.
      rewrite <- app_assoc in Hn.
      rewrite nth_error_app2, Nat.sub_diag in Hn by lia. simpl in Hn.
      injection Hn as <-. congruence.
    + rewrite Hw in Hn. simpl in Hn.
      rewrite nth_error_app2, Nat.sub_diag in Hn by lia. simpl in Hn.
      injection Hn as <-.
      unfold dns_activate, domains_get_details, bind, request.
      change (mkRequest "GET" _ _ _ _ _)
        with (details_request self domain_name).
      now rewrite Ht.
  - destruct H as (r & Hn & Ht).
    destruct (dns_activate_issued transport self domain_name w)
      as [Hc | (d & oid & Hb & _ & Hc)].
    + now apply issued_app.
    + rewrite Hc in Hn.
      rewrite nth_error_app2, Nat.sub_diag in Hn by lia. simpl in Hn.
      injection Hn as <-. congruence.
Qed.

Lemma transport_failure_propagates_witness :
  fst (dns_activate (failing_transport "connection refused") example_client
         (PStr "example.org") world0)
  = Raise (TransportError "connection refused").
Proof.
  destruct (transport_failure_propagates
              (failing_transport "connection refused") example_client
              "connection refused" world0)
    as (_ & _ & _ & _ & _ & _ & _ & _ & _ & H).
  apply (H (PStr "example.org")).
  eexists. split; reflexivity.
Defined.

(** ** contacts_add and customers_add: the address joins the parameters *)

(** X6: Both operations send one POST whose parameters are their own seven
    fields followed by the seven of the address, fourteen keys in all;
    no key of the address replaces one of the operation's own. *)
Theorem address_params_are_appended :
  forall (transport : list http_request -> http_request -> reply)
         (self : ApiClient) (address : Address) (w : world),
    (forall type name company email phone_cc phone customer_id,
        exists r,
          issued w (snd (contacts_add transport self type name company email
                           address phone_cc phone customer_id w)) = [r] /\
          req_method r = "POST" /\
          req_path r = "contacts/add.json" /\
          req_params r =
            ([ ("type", type); ("name", name); ("company", company);
               ("email", email); ("phone-cc", phone_cc); ("phone", phone);
               ("customer-id", customer_id) ] ++ to_params address)%list) /\
    (forall username password name company phone_cc phone lang_pref,
        exists r,
          issued w (snd (customers_add transport self username password name
                           company address phone_cc phone lang_pref w)) = [r] /\
          req_method r = "POST" /\
          req_path r = "customers/signup.json" /\
          req_params r =
            ([ ("username", username); ("passwd", password); ("name", name);
               ("company", company); ("phone-cc", phone_cc); ("phone", phone);
               ("lang-pref", lang_pref) ] ++ to_params address)%list).
Proof.
  intros transport self address w. split; intros.
  - unfold contacts_add. rewrite wrapped_world, request_world.
    eexists. split; [apply issued_app; reflexivity|]. repeat split.
  - unfold customers_add. rewrite wrapped_world, request_world.
    eexists. split; [apply issued_app; reflexivity|]. repeat split.
Qed.

(** ** The frontend as a whole *)

Lemma main_sends_any (transport : list http_request -> http_request -> reply)
    (env : environ) (args : dict) (w : world) :
  exists l,
    calls (snd (main transport env args w)) = (calls w ++ l)%list /\
    (List.length l <= 2)%nat /\
    (flag_off args "activate" -> (List.length l <= 1)%nat) /\
    (forall msg, fst (main transport env args w) <> Raise (ResellerError msg)) /\
    (forall user_id api_key,
        environ_get "RESELLERCLUB_USER_ID" env = Some user_id ->
        environ_get "RESELLERCLUB_API_KEY" env = Some api_key ->
        Forall (from_client (client_of_environ env user_id api_key)) l).
Proof.
  destruct (environ_get "RESELLERCLUB_USER_ID" env) as [u|] eqn:Hu;
    [destruct (environ_get "RESELLERCLUB_API_KEY" env) as [k|] eqn:Hk|].
  - destruct (@sends_main transport env args u k Hu Hk) as [H2 H1].
    destruct (H2 w) as (l & Hc & Hf & Hl & Hr).
    exists l. repeat split; try assumption.
    + intros Hoff. destruct (H1 Hoff w) as (l' & Hc' & _ & Hl' & _).
      rewrite Hc in Hc'. apply app_inv_head in Hc'. now subst l'.
    + intros u' k' Hu' Hk'. injection Hu' as <-. injection Hk' as <-.
      exact Hf.
  - destruct (@main_missing_credentials transport env args w (or_intror Hk))
      as (name & Hm & _).
    exists []%list. rewrite Hm. simpl. rewrite app_nil_r.
    repeat split; try (simpl; lia); try discriminate; intros; simpl; try lia;
      try constructor.
  - destruct (@main_missing_credentials transport env args w (or_introl Hu))
      as (name & Hm & _).
    exists []%list. rewrite Hm. simpl. rewrite app_nil_r.
    repeat split; try (simpl; lia); try discriminate; intros; simpl; try lia;
      try constructor.
Qed.

(** X7: Every call the frontend issues carries the user id and the API key of
    the environment as session parameters and goes, by GET or POST, to a
    base URL that ends with a slash: the default URL when RESELLERCLUB_URL
    is unset or empty, and that URL otherwise. *)
Theorem frontend_calls_carry_credentials :
  forall (transport : list http_request -> http_request -> reply)
         (env : environ) (args : dict) (user_id api_key : string)
         (w : world) (r : http_request),
    environ_get "RESELLERCLUB_USER_ID" env = Some user_id ->
    environ_get "RESELLERCLUB_API_KEY" env = Some api_key ->
    In r (issued w (snd (main transport env args w))) ->
    req_session_params r =
      [ ("auth-userid", PStr user_id); ("api-key", PStr api_key) ]%list /\
    (req_method r = "GET" \/ req_method r = "POST") /\
    ends_with_slash (req_base r) = true /\
    req_base r =
      append_slash
        (match environ_get "RESELLERCLUB_URL" env with
         | Some u => if (u =? "")%string then DEFAULT_URL else u
         | None => DEFAULT_URL
         end).
Proof.
  intros transport env args user_id api_key w r Hu Hk Hin.
  destruct (main_sends_any transport env args w) as (l & Hc & _ & _ & _ & Hf).
  rewrite (@issued_app _ _ _ Hc) in Hin.
  specialize (Hf user_id api_key Hu Hk).
  rewrite Forall_forall in Hf.
  destruct (Hf r Hin) as (Hb & Hs & _ & Hm).
  repeat split; try assumption.
  - rewrite Hb. apply ends_with_slash_append_slash.
Qed.

Lemma frontend_calls_carry_credentials_witness :
  exists r,
    In r (issued world0
            (snd (main (constant_transport (PDict activated_body))
                    example_environ example_list_args world0))) /\
    req_session_params r =
      [ ("auth-userid", PStr "12345"); ("api-key", PStr "secret") ]%list /\
    req_base r = "https://httpapi.com/api/".
Proof.
  eexists. split; [left; reflexivity|].
  destruct (@frontend_calls_carry_credentials
              (constant_transport (PDict activated_body)) example_environ
              example_list_args "12345" "secret" world0 _
              eq_refl eq_refl (or_introl eq_refl)) as (Hs & _ & _ & Hb).
  split; [exact Hs | exact Hb].
Defined.

(** X8: One run of the frontend issues at most two calls, and at most one
    when the command is not activate; the calls made before it stay as
    they were. *)
Theorem frontend_issues_at_most_two_calls :
  forall (transport : list http_request -> http_request -> reply)
         (env : environ) (args : dict) (w : world),
    let w' := snd (main transport env args w) in
    firstn (List.length (calls w)) (calls w') = calls w /\
    (List.length (issued w w') <= 2)%nat /\
    (flag_off args "activate" -> (List.length (issued w w') <= 1)%nat).
Proof.
  intros transport env args w w'. subst w'.
  destruct (main_sends_any transport env args w) as (l & Hc & H2 & H1 & _).
  rewrite (@issued_app _ _ _ Hc), Hc.
  repeat split; try assumption.
  rewrite firstn_app, firstn_all, Nat.sub_diag. simpl. apply app_nil_r.
Qed.

Lemma frontend_issues_at_most_two_calls_witness :
  (List.length
     (issued world0
        (snd (main (constant_transport (PDict activated_body))
                example_environ example_list_args world0))) <= 1)%nat.
Proof.
  apply (frontend_issues_at_most_two_calls
           (constant_transport (PDict activated_body))
           example_environ example_list_args world0).
  exists (PBool false). split; reflexivity.
Defined.

(** X9: The frontend never ends with ResellerError: the operations it uses do
    not check the body for an error. *)
Theorem frontend_never_raises_reseller_error :
  forall (transport : list http_request -> http_request -> reply)
         (env : environ) (args : dict) (w : world) (message : pyval),
    fst (main transport env args w) <> Raise (ResellerError message).
Proof.
  intros transport env args w message.
  destruct (main_sends_any transport env args w) as (l & _ & _ & _ & Hr & _).
  apply Hr.
Qed.



(** ** Results that are not mappings *)

(** X11: A body that decodes to None (JSON null) is taken for "no result":
    nothing is printed and the process exits with status 0. *)
Theorem null_result_prints_nothing :
  forall (transport : list http_request -> http_request -> reply)
         (env : environ) (args : dict) (w w1 : world),
    obtains transport env args w PNone w1 ->
    main transport env args w = (Ok None, w1) /\
    run transport env args w = (0%Z, w1).
Proof.
  intros transport env args w w1 Hob.
  pose proof (main_obtained Hob) as Hm. simpl in Hm.
  split; [exact Hm | unfold run; now rewrite Hm].
Qed.

Lemma null_result_prints_nothing_witness :
  stdout (snd (run (constant_transport PNone) example_environ
                 example_list_args world0)) = []%list /\
  fst (run (constant_transport PNone) example_environ
         example_list_args world0) = 0%Z.
Proof.
  destruct (null_result_prints_nothing (example_list_obtains PNone))
    as [_ Hr].
  rewrite Hr. split; reflexivity.
Defined.

(** X12: A result that is a number or a boolean is printed, and then the test
    ['error' in result] raises TypeError: the process exits with 1. *)
Theorem scalar_result_exits_one :
  forall (transport : list http_request -> http_request -> reply)
         (env : environ) (args : dict) (result : pyval) (w w1 : world),
    obtains transport env args w result w1 ->
    (exists b, result = PBool b) \/ (exists z, result = PInt z) \/
    (exists f, result = PFloat f) ->
    (exists what,
        main transport env args w
        = (Raise (TypeError what),
           mkWorld (calls w1) (stdout w1 ++ [PrintJson result]))) /\
    run transport env args w
    = (1%Z, mkWorld (calls w1) (stdout w1 ++ [PrintJson result])).
Proof.
  intros transport env args result w w1 Hob Hk.
  pose proof (main_obtained Hob) as Hm.
  unfold run. rewrite Hm.
  destruct Hk as [(b & ->) | [(z & ->) | (f & ->)]];
    (split; [eexists; reflexivity | reflexivity]).
Qed.

Lemma scalar_result_exits_one_witness :
  run (constant_transport (PBool true)) example_environ example_list_args
    world0
  = (1%Z,
     mkWorld
       (calls (snd (cmd_domain (constant_transport (PBool true))
                      example_client example_list_args world0)))
       [PrintJson (PBool true)]).
Proof.
  apply (scalar_result_exits_one (example_list_obtains (PBool true))).
  left. now exists true.
Defined.

(** X13: A result that is a string exits with 1 exactly when "error" occurs in
    it, and a result that is a list exactly when the string "error" is one
    of its elements; both are printed first. *)
Theorem string_and_list_results :
  forall (transport : list http_request -> http_request -> reply)
         (env : environ) (args : dict) (result : pyval) (w w1 : world),
    obtains transport env args w result w1 ->
    (forall s, result = PStr s ->
       run transport env args w
       = ((if substringb "error" s then 1 else 0)%Z,
          mkWorld (calls w1) (stdout w1 ++ [PrintJson result]))) /\
    (forall l, result = PList l ->
       run transport env args w
       = ((if existsb (fun x => py_eq_str x "error") l then 1 else 0)%Z,
          mkWorld (calls w1) (stdout w1 ++ [PrintJson result]))).
Proof.
  intros transport env args result w w1 Hob.
  pose proof (main_obtained Hob) as Hm.
  split.
  - intros s ->. unfold run. rewrite Hm.
    unfold bind, print, py_in_str, ret. now destruct (substringb "error" s).
  - intros l ->. unfold run. rewrite Hm.
    unfold bind, print, py_in_str, ret. now destruct (existsb _ l).
Qed.

Lemma string_and_list_results_witness :
  fst (run (constant_transport (PList [PStr "warning"; PStr "error"]))
         example_environ example_list_args world0) = 1%Z.
Proof.
  rewrite (proj2 (string_and_list_results
                    (example_list_obtains
                       (PList [PStr "warning"; PStr "error"])))
             [PStr "warning"; PStr "error"]%list eq_refl).
  reflexivity.
Defined.

(** ** A ttl that is falsy *)

(** X14: The add command sends a null ttl whenever the value of --ttl is falsy:
    None, but also 0 or an empty string. *)
Theorem add_drops_falsy_ttl :
  forall (transport : list http_request -> http_request -> reply)
         (client : ApiClient) (args : dict) (t alias : string)
         (domain name value ttl : pyval) (w : world),
    In (t, alias) [ ("A", "ipv4"); ("AAAA", "ipv6"); ("CNAME", "cname") ]%list ->
    add_command args (PStr t) domain name value ttl ->
    py_truthy ttl = false ->
    exists r,
      issued w (snd (cmd_domain transport client args w)) = [r] /\
      req_params r =
        [ ("domain-name", domain); ("value", value); ("host", name);
          ("ttl", PNone) ]%list.
Proof.
  intros transport client args t alias domain name value ttl w Hin Hc Hf.
  rewrite (@cmd_domain_add transport client args t alias domain name value
             ttl w Hin Hc).
  unfold dns_add_record. rewrite request_world.
  eexists. split; [apply issued_app; reflexivity|]. simpl.
  unfold py_or. now rewrite Hf.
Qed.

Lemma add_drops_falsy_ttl_witness :
  exists r,
    issued world0
      (snd (cmd_domain (constant_transport (PDict [])) example_client
              (dict_set "--ttl" (PInt 0) example_add_args) world0)) = [r] /\
    dict_get "ttl" (req_params r) = Some PNone.
Proof.
  destruct (@add_drops_falsy_ttl (constant_transport (PDict []))
              example_client (dict_set "--ttl" (PInt 0) example_add_args)
              "AAAA" "ipv6" (PStr "example.org") (PStr "foo") (PStr "::1")
              (PInt 0) world0) as (r & Hi & Hp).
  - simpl. tauto.
  - repeat split. exists (PBool true). split; reflexivity.
  - reflexivity.
  - exists r. split; [exact Hi | now rewrite Hp].
Defined.

(** ** activate looks at the domain only *)

(** X15: Two command lines that both ask for activate and name the same domain
    behave alike, whatever their other fields hold. *)
Theorem activate_ignores_other_fields :
  forall (transport : list http_request -> http_request -> reply)
         (env : environ) (args1 args2 : dict) (w : world),
    flag_on args1 "activate" ->
    flag_on args2 "activate" ->
    dict_get "<domain>" args1 = dict_get "<domain>" args2 ->
    main transport env args1 w = main transport env args2 w /\
    run transport env args1 w = run transport env args2 w.
Proof.
  intros transport env args1 args2 w (a1 & Ha1 & Ht1) (a2 & Ha2 & Ht2) Hd.
  assert (Hm : main transport env args1 w = main transport env args2 w).
  { destruct (environ_get "RESELLERCLUB_USER_ID" env) as [u|] eqn:Hu;
      [destruct (environ_get "RESELLERCLUB_API_KEY" env) as [k|] eqn:Hk|].
    - rewrite !(@main_credentials transport env _ u k w Hu Hk).
      unfold cmd_activate, bind, getitem, ret.
      now rewrite Ha1, Ha2, Ht1, Ht2, Hd.
    - unfold main, bind, environ_getitem, ret. now rewrite Hu, Hk.
    - unfold main, bind, environ_getitem. now rewrite Hu. }
  split; [exact Hm | unfold run; now rewrite Hm].
Qed.

Lemma activate_ignores_other_fields_witness :
  run (constant_transport (PDict activated_body)) example_environ
    [ ("activate", PBool true); ("<domain>", PStr "example.org") ] world0
  = run (constant_transport (PDict activated_body)) example_environ
      [ ("activate", PBool true); ("<domain>", PStr "example.org");
        ("<record-type>", PStr "TXT"); ("--ttl", PInt 300) ] world0.
Proof.
  apply (@activate_ignores_other_fields
           (constant_transport (PDict activated_body)) example_environ
           [ ("activate", PBool true); ("<domain>", PStr "example.org") ]
           [ ("activate", PBool true); ("<domain>", PStr "example.org");
             ("<record-type>", PStr "TXT"); ("--ttl", PInt 300) ] world0).
  - exists (PBool true). split; reflexivity.
  - exists (PBool true). split; reflexivity.
  - reflexivity.
Defined.

(** ** From the command line to the printed body *)

Lemma bind_ok {A B : Type} (m : M A) (k : A -> M B) (a : A) (w w1 : world) :
  m w = (Ok a, w1) -> bind m k w = k a w1.
Proof.
  intros H. unfold bind. now rewrite H.
Qed.

Lemma bind_raise {A B : Type} (m : M A) (k : A -> M B) (e : exn)
    (w w1 : world) :
  m w = (Raise e, w1) -> bind m k w = (Raise e, w1).
Proof.
  intros H. unfold bind. now rewrite H.
Qed.

Arguments bind_ok {A B} m k {a w w1} _.
Arguments bind_raise {A B} m k {e w w1} _.

Lemma main_tail_mapping (d : dict) (w1 : world) :
  (_ <- print (PrintJson (PDict d)) ;;
   has_error <- py_in_str "error" (PDict d) ;;
   if has_error then ret (Some 1%Z) else ret None) w1
  = ((if dict_has "error" d then Ok (Some 1%Z) else Ok None),
     mkWorld (calls w1) (stdout w1 ++ [PrintJson (PDict d)])).
Proof.
  unfold bind, print, py_in_str, ret. now destruct (dict_has "error" d).
Qed.

Section EndToEnd.

Variable transport : list http_request -> http_request -> reply.

(** [main] when the command comes down to one call of [request]. *)
Lemma main_of_request (env : environ) (args : dict)
    (user_id api_key http_method api_method : string) (params d : dict)
    (w : world) :
  environ_get "RESELLERCLUB_USER_ID" env = Some user_id ->
  environ_get "RESELLERCLUB_API_KEY" env = Some api_key ->
  flag_off args "activate" ->
  cmd_domain transport (client_of_environ env user_id api_key) args w
  = request transport (client_of_environ env user_id api_key)
      http_method api_method params w ->
  replied transport w 0 (PDict d) (snd (main transport env args w)) ->
  main transport env args w
  = ((if dict_has "error" d then Ok (Some 1%Z) else Ok None),
     mkWorld
       (calls w ++
        [mkRequest http_method
           (append_slash (url (client_of_environ env user_id api_key)))
           (api_method ++ ".json") params PNone
           [ ("auth-userid", PStr user_id); ("api-key", PStr api_key) ]])
       (stdout w ++ [PrintJson (PDict d)])).
Proof.
  intros Hu Hk (a & Ha & Hat) Hcmd Hr.
  set (client := client_of_environ env user_id api_key) in *.
  rewrite (@main_credentials transport env args user_id api_key w Hu Hk) in *.
  assert (Hact : getitem args "activate" w = (Ok a, w))
    by (unfold getitem; now rewrite Ha).
  rewrite (bind_ok _ _ Hact) in *. rewrite Hat in *. fold client in Hr |- *.
  pose proof (request_world transport client http_method api_method params w)
    as Hw.
  pose proof (request_result transport client http_method api_method params w)
    as Hres.
  rewrite <- Hcmd in Hw, Hres.
  destruct (cmd_domain transport client args w) as [[v|e] w1] eqn:Hc;
    cbn [fst snd] in Hw, Hres; subst w1.
  - rewrite (bind_ok _ _ Hc) in *.
    assert (Ht : transport (calls w)
                   (mkRequest http_method (append_slash (url client))
                      (api_method ++ ".json") params (proxies client)
                      (session_params client)) = Body (PDict d)).
    { destruct (sends_main_tail client v
                  (mkWorld
                     (calls w ++
                      [mkRequest http_method (append_slash (url client))
                         (api_method ++ ".json") params (proxies client)
                         (session_params client)])
                     (stdout w))) as (l & Hl & _ & Hn & _).
      destruct l; [|simpl in Hn; lia]. simpl in Hl.
      rewrite app_nil_r in Hl.
      eapply replied_first; [exact Hl | exact Hr]. }
    rewrite Ht in Hres. injection Hres as ->.
    now rewrite main_tail_mapping.
  - rewrite (bind_raise _ _ Hc) in *. exfalso.
    assert (Ht : transport (calls w)
                   (mkRequest http_method (append_slash (url client))
                      (api_method ++ ".json") params (proxies client)
                      (session_params client)) = Body (PDict d))
      by (cbn [snd] in Hr; eapply replied_first; [|exact Hr]; reflexivity).
    rewrite Ht in Hres. discriminate Hres.
Qed.

End EndToEnd.

(** X16: For add, delete and list with a supported record type, a mapping the
    service answers with is printed as it is, also when it reports an
    error through its status, and the exit status is 1 only if the
    mapping has an "error" key. *)
Theorem frontend_prints_the_body :
  forall (transport : list http_request -> http_request -> reply)
         (env : environ) (args : dict) (user_id api_key t alias : string)
         (d : dict) (w : world),
    environ_get "RESELLERCLUB_USER_ID" env = Some user_id ->
    environ_get "RESELLERCLUB_API_KEY" env = Some api_key ->
    flag_off args "activate" ->
    In (t, alias) [ ("A", "ipv4"); ("AAAA", "ipv6"); ("CNAME", "cname") ]%list ->
    (exists domain name value ttl,
        add_command args (PStr t) domain name value ttl) \/
    (exists domain name value,
        delete_command args (PStr t) domain name value) \/
    (exists domain name, list_command args (PStr t) domain name) ->
    replied transport w 0 (PDict d) (snd (main transport env args w)) ->
    exists r,
      run transport env args w
      = ((if dict_has "error" d then 1 else 0)%Z,
         mkWorld (calls w ++ [r]) (stdout w ++ [PrintJson (PDict d)])).
Proof.
  intros transport env args user_id api_key t alias d w Hu Hk Hoff Hin Hcmd Hr.
  assert (Hreq : exists http_method api_method params,
             cmd_domain transport (client_of_environ env user_id api_key)
               args w
             = request transport (client_of_environ env user_id api_key)
                 http_method api_method params w).
  { destruct Hcmd as [(domain & name & value & ttl & Hc)
                     | [(domain & name & value & Hc) | (domain & name & Hc)]].
    - rewrite (@cmd_domain_add transport _ args t alias domain name value ttl
                 w Hin Hc).
      unfold dns_add_record. eauto.
    - rewrite (@cmd_domain_delete transport _ args t alias domain name value
                 w Hin Hc).
      unfold dns_delete_record. eauto.
    - rewrite (@cmd_domain_list transport _ args t alias domain name w Hin Hc).
      unfold dns_search. eauto. }
  destruct Hreq as (http_method & api_method & params & Hreq).
  eexists. unfold run.
  rewrite (@main_of_request transport env args user_id api_key http_method
             api_method params d w Hu Hk Hoff Hreq Hr).
  destruct (dict_has "error" d); reflexivity.
Qed.

Lemma frontend_prints_the_body_witness :
  exists r,
    run (constant_transport (PDict not_found_body)) example_environ
      example_delete_args world0
    = (0%Z, mkWorld [r] [PrintJson (PDict not_found_body)]).
Proof.
  destruct (@frontend_prints_the_body
              (constant_transport (PDict not_found_body)) example_environ
              example_delete_args "12345" "secret" "CNAME" "cname"
              not_found_body world0 eq_refl eq_refl) as (r & Hrun).
  - exists (PBool false). split; reflexivity.
  - simpl. tauto.
  - right. left. exists (PStr "example.org"), (PStr "www"), (PStr "example.net").
    exact example_delete_command.
  - eexists. split; reflexivity.
  - exists r. exact Hrun.
Defined.

Lemma replied_same_calls
    (transport : list http_request -> http_request -> reply)
    (w w1 w2 : world) (k : nat) (body : pyval) :
  calls w1 = calls w2 ->
  replied transport w k body w1 -> replied transport w k body w2.
Proof.
  intros Hc (r & Hn & Ht). exists r. now rewrite <- Hc.
Qed.

Lemma main_tail_calls (result : pyval) (w1 : world) :
  calls (snd (match result with
              | PNone => ret None
              | _ =>
                  _ <- print (PrintJson result) ;;
                  has_error <- py_in_str "error" result ;;
                  if has_error then ret (Some 1%Z) else ret None
              end w1)) = calls w1.
Proof.
  destruct (sends_main_tail example_client result w1) as (l & Hl & _ & Hn & _).
  destruct l; [|simpl in Hn; lia]. now rewrite app_nil_r in Hl.
Qed.

(** X17: With activate, the body of the activation call is what the frontend
    prints, after the two calls of dns_activate; the exit status is 1 only
    if that body has an "error" key. *)
Theorem activate_prints_activation_body :
  forall (transport : list http_request -> http_request -> reply)
         (env : environ) (args : dict) (user_id api_key : string)
         (domain entityid : pyval) (details d : dict) (w : world),
    environ_get "RESELLERCLUB_USER_ID" env = Some user_id ->
    environ_get "RESELLERCLUB_API_KEY" env = Some api_key ->
    flag_on args "activate" ->
    dict_get "<domain>" args = Some domain ->
    replied transport w 0 (PDict details) (snd (main transport env args w)) ->
    dict_get "entityid" details = Some entityid ->
    replied transport w 1 (PDict d) (snd (main transport env args w)) ->
    run transport env args w
    = ((if dict_has "error" d then 1 else 0)%Z,
       mkWorld
         (calls w ++
          [ details_request (client_of_environ env user_id api_key) domain;
            activate_request (client_of_environ env user_id api_key)
              entityid ])
         (stdout w ++ [PrintJson (PDict d)])).
Proof.
  intros transport env args user_id api_key domain entityid details d w
    Hu Hk (a & Ha & Hat) Hd H0 He H1.
  set (client := client_of_environ env user_id api_key) in *.
  assert (Hact : getitem args "activate" w = (Ok a, w))
    by (unfold getitem; now rewrite Ha).
  assert (Hdom : getitem args "<domain>" w = (Ok domain, w))
    by (unfold getitem; now rewrite Hd).
  assert (Hcmd : cmd_activate transport client args w
                 = dns_activate transport client domain w)
    by (unfold cmd_activate; now rewrite (bind_ok _ _ Hdom)).
  assert (Hmain : main transport env args w =
                  (result <- dns_activate transport client domain ;;
                   match result with
                   | PNone => ret None
                   | _ =>
                       _ <- print (PrintJson result) ;;
                       has_error <- py_in_str "error" result ;;
                       if has_error then ret (Some 1%Z) else ret None
                   end) w).
  { rewrite (@main_credentials transport env args user_id api_key w Hu Hk).
    rewrite (bind_ok _ _ Hact), Hat. fold client.
    unfold bind. now rewrite Hcmd. }
  assert (Hcalls : calls (snd (main transport env args w))
                   = calls (snd (dns_activate transport client domain w))).
  { rewrite Hmain. unfold bind.
    destruct (dns_activate transport client domain w) as [[v|e] w1];
      [apply main_tail_calls | reflexivity]. }
  apply (@replied_same_calls transport w _ _ _ _ Hcalls) in H0, H1.
  pose proof (@dns_activate_raw transport client domain details entityid
                (PDict d) w H0 He H1) as Hres.
  assert (Hw : snd (dns_activate transport client domain w)
               = mkWorld
                   (calls w ++ [ details_request client domain;
                                 activate_request client entityid ])
                   (stdout w)).
  { destruct (dns_activate_cases transport client domain w)
      as [(d' & oid & Ht & He' & Heq) | (Hno & Hw & _)].
    - rewrite Heq in H0 |- *. rewrite request_world in H0 |- *.
      cbn [calls stdout] in H0 |- *. rewrite <- app_assoc in H0 |- *.
      eapply replied_first in H0; [|reflexivity].
      rewrite Ht in H0. injection H0 as ->.
      rewrite He in He'. injection He' as <-. reflexivity.
    - exfalso. rewrite Hw in H0.
      eapply replied_first in H0; [|reflexivity].
      exact (Hno details entityid H0 He). }
  unfold run. rewrite Hmain. unfold bind at 1.
  destruct (dns_activate transport client domain w) as [res w1].
  cbn [fst snd] in Hres, Hw. subst res w1.
  rewrite main_tail_mapping. now destruct (dict_has "error" d).
Qed.

Lemma activate_prints_activation_body_witness :
  run (constant_transport (PDict activated_body)) example_environ
    [ ("activate", PBool true); ("<domain>", PStr "example.org") ] world0
  = (0%Z,
     mkWorld
       [ details_request example_client (PStr "example.org");
         activate_request example_client (PInt 42) ]
       [PrintJson (PDict activated_body)]).
Proof.
  apply (@activate_prints_activation_body
           (constant_transport (PDict activated_body)) example_environ
           [ ("activate", PBool true); ("<domain>", PStr "example.org") ]
           "12345" "secret" (PStr "example.org") (PInt 42)
           activated_body activated_body world0).
  - reflexivity.
  - reflexivity.
  - exists (PBool true). split; reflexivity.
  - reflexivity.
  - eexists. split; reflexivity.
  - reflexivity.
  - eexists. split; reflexivity.
Defined.
